(** * go-practice: the snippet server's routes and handlers

    A shallow embedding of [main.go] (and of the earlier revision of the
    same program, the one whose only handler is an unguarded [home]).

    The program is a client of Go's [net/http]: it registers three
    handlers on a [ServeMux] and each handler talks to the
    [http.ResponseWriter] it is given.  The part of [net/http] the program
    calls is modelled in [Module NetHttp]: header maps, the response
    writer's [WriteHeader]/[Write] protocol, [http.Error], [http.NotFound],
    and the mux: its pattern table, its [match] function, the cleaning of
    the request path and the redirect the mux answers to a path that is
    not in canonical form.

    What is modelled is the mux serving one request on the writer it is
    given, not the server around it: the request line the server refuses
    before any handler runs, the reply the server gives to OPTIONS * by
    itself, and the headers it adds on the wire (Date, Content-Length, a
    sniffed Content-Type) are outside. *)

From Stdlib Require Import Ascii String NArith Arith Bool List Sorted Lia.
From stdpp Require Import base option gmap strings list.

Local Open Scope string_scope.

(** ** Go's [strings] and [fmt], as far as the program reaches them *)

Module Strings.

(** [strings.HasPrefix]:
    [len(s) >= len(prefix) && s[:len(prefix)] == prefix]. *)
Definition HasPrefix (s prefix : string) : bool :=
  (String.length prefix <=? String.length s)%nat
  && String.eqb (String.substring 0 (String.length prefix) s) prefix.

(** [pattern[len(pattern)-1] == '/'], on a non-empty pattern. *)
Fixpoint lastByte (s : string) : option ascii :=
  match s with
  | EmptyString => None
  | String c EmptyString => Some c
  | String _ rest => lastByte rest
  end.

Definition endsInSlash (s : string) : bool :=
  match lastByte s with
  | Some c => Ascii.eqb c "/"%char
  | None => false
  end.

(** The line feed [fmt.Fprintln] ends its output with. *)
Definition newline : string := String (ascii_of_nat 10) EmptyString.

(** The double quote, as a one-byte string. *)
Definition quote : string := String (ascii_of_nat 34) EmptyString.

(** The elements of a path: the pieces between its slashes (one more
    than there are slashes; a piece may be empty). *)
Fixpoint elements (s : string) : list string :=
  match s with
  | EmptyString => [EmptyString]
  | String c rest =>
      if Ascii.eqb c "/"%char then EmptyString :: elements rest
      else match elements rest with
           | x :: xs => String c x :: xs
           | [] => [String c EmptyString]
           end
  end.

(** The elements put together again, a slash between two neighbours. *)
Fixpoint joinElements (l : list string) : string :=
  match l with
  | [] => EmptyString
  | [x] => x
  | x :: rest => x ++ "/" ++ joinElements rest
  end.

End Strings.

(** ** Go's [path] package: [path.Clean] *)

Module GoPath.

(** One element of the path met by [Clean], with the elements kept so far
    on a stack: an empty element and [.] are dropped; [..] takes back the
    element on top, when there is one to take back ([..] itself is kept
    only in a path that is not rooted, at its front); any other element
    is kept. *)
Definition cleanStep (rooted : bool) (stack : list string) (elem : string)
  : list string :=
  if String.eqb elem "" || String.eqb elem "." then stack
  else if String.eqb elem ".." then
    match stack with
    | top :: below =>
        if rooted || negb (String.eqb top "..") then below
        else elem :: stack
    | [] => if rooted then [] else [elem]
    end
  else elem :: stack.

(** [path.Clean(path)].  The Go loop walks the bytes and writes to a
    buffer it may wind back; here the same walk goes element by element. *)
Definition Clean (path : string) : string :=
  if String.eqb path "" then "."
  else
    let rooted := match path with
                  | String c _ => Ascii.eqb c "/"%char
                  | EmptyString => false
                  end in
    let kept := rev (fold_left (cleanStep rooted) (Strings.elements path) []) in
    if rooted then "/" ++ Strings.joinElements kept
    else if String.eqb (Strings.joinElements kept) "" then "."
    else Strings.joinElements kept.

End GoPath.

(** ** The fragment of [net/http] the program uses *)

Module NetHttp.

(** *** Constants *)

Definition StatusOK : nat := 200.
Definition StatusNotFound : nat := 404.
Definition StatusMethodNotAllowed : nat := 405.
Definition StatusMovedPermanently : nat := 301.
Definition StatusTemporaryRedirect : nat := 307.
Definition MethodPost : string := "POST".

(** [http.StatusText], for the codes above; the empty string for a code
    the table does not hold. *)
Definition StatusText (code : nat) : string :=
  if (code =? 200)%nat then "OK"
  else if (code =? 301)%nat then "Moved Permanently"
  else if (code =? 307)%nat then "Temporary Redirect"
  else if (code =? 404)%nat then "Not Found"
  else if (code =? 405)%nat then "Method Not Allowed"
  else "".

(** *** Header maps: [type Header map[string][]string] *)

Abbreviation Header := (gmap string (list string)).

Definition isLower (c : ascii) : bool :=
  (N_of_ascii "a" <=? N_of_ascii c)%N && (N_of_ascii c <=? N_of_ascii "z")%N.
Definition isUpper (c : ascii) : bool :=
  (N_of_ascii "A" <=? N_of_ascii c)%N && (N_of_ascii c <=? N_of_ascii "Z")%N.
Definition isDigit (c : ascii) : bool :=
  (N_of_ascii "0" <=? N_of_ascii c)%N && (N_of_ascii c <=? N_of_ascii "9")%N.

Definition toUpper (c : ascii) : ascii := ascii_of_N (N_of_ascii c - 32).
Definition toLower (c : ascii) : ascii := ascii_of_N (N_of_ascii c + 32).

(** The bytes of an HTTP token: letters, digits and a few signs. *)
Definition validHeaderFieldByte (c : ascii) : bool :=
  isLower c || isUpper c || isDigit c
  || existsb (Ascii.eqb c)
       (list_ascii_of_string "!#$%&'*+-.^_`|~").

Fixpoint allValid (s : string) : bool :=
  match s with
  | EmptyString => true
  | String c rest => validHeaderFieldByte c && allValid rest
  end.

(** First letter upper case, and upper case after each dash; every other
    letter lower case. *)
Fixpoint canonicalize (upper : bool) (s : string) : string :=
  match s with
  | EmptyString => EmptyString
  | String c rest =>
      let c' := if upper && isLower c then toUpper c
                else if negb upper && isUpper c then toLower c
                else c in
      String c' (canonicalize (Ascii.eqb c' "-"%char) rest)
  end.

(** [textproto.CanonicalMIMEHeaderKey]: a key holding a byte that is not
    a token byte is returned unchanged. *)
Definition CanonicalMIMEHeaderKey (s : string) : string :=
  if allValid s then canonicalize true s else s.

Definition Header_Set (h : Header) (key value : string) : Header :=
  <[CanonicalMIMEHeaderKey key := [value]]> h.

Definition Header_Del (h : Header) (key : string) : Header :=
  delete (CanonicalMIMEHeaderKey key) h.

Definition Header_Values (h : Header) (key : string) : list string :=
  default [] (h !! CanonicalMIMEHeaderKey key).

(** [Header.Get]: the first value of the key, or the empty string. *)
Definition Header_Get (h : Header) (key : string) : string :=
  match Header_Values h key with
  | v :: _ => v
  | [] => ""
  end.

(** *** Requests: the fields of [http.Request] a handler can read *)

Record URL := mkURL {
  Path : string;
  RawQuery : string
}.

Record Request := mkRequest {
  Method : string;
  Url : URL;
  Host : string;
  RequestHeader : Header;
  Body : string
}.

(** *** The response writer

    What a handler does to its [http.ResponseWriter], kept as state:
    the header map [w.Header()] returns, whether the status line went
    out and with which code, the headers as they were at that moment,
    the body bytes, and the calls received, oldest first. *)

Inductive Call :=
| CallHeaderSet (key value : string)
| CallHeaderDel (key : string)
| CallWriteHeader (code : nat)
| CallWrite (data : string).

Definition isHeaderOp (c : Call) : bool :=
  match c with
  | CallHeaderSet _ _ | CallHeaderDel _ => true
  | _ => false
  end.

Definition isWriteHeader (c : Call) : bool :=
  match c with
  | CallWriteHeader _ => true
  | _ => false
  end.

Definition isWrite (c : Call) : bool :=
  match c with
  | CallWrite _ => true
  | _ => false
  end.

(** The protocol of a well-behaved handler: every change to the headers
    comes first, then one status line, then only body writes. *)
Definition headerOnceThenBody (cs : list Call) : Prop :=
  exists pre code post,
    cs = (pre ++ CallWriteHeader code :: post)%list
    /\ Forall (fun c => isHeaderOp c = true) pre
    /\ Forall (fun c => isWrite c = true) post.

Record ResponseWriter := mkResponseWriter {
  handlerHeader : Header;
  wroteHeader : bool;
  status : nat;
  sentHeader : Header;
  body : string;
  calls : list Call
}.

(** The writer the server hands to a handler. *)
Definition newResponseWriter : ResponseWriter :=
  {| handlerHeader := ∅; wroteHeader := false; status := 0;
     sentHeader := ∅; body := ""; calls := [] |}.

(** [w.Header().Set(key, value)] *)
Definition SetHeader (w : ResponseWriter) (key value : string) : ResponseWriter :=
  {| handlerHeader := Header_Set (handlerHeader w) key value;
     wroteHeader := wroteHeader w; status := status w;
     sentHeader := sentHeader w; body := body w;
     calls := calls w ++ [CallHeaderSet key value] |}.

(** [w.Header().Del(key)] *)
Definition DelHeader (w : ResponseWriter) (key : string) : ResponseWriter :=
  {| handlerHeader := Header_Del (handlerHeader w) key;
     wroteHeader := wroteHeader w; status := status w;
     sentHeader := sentHeader w; body := body w;
     calls := calls w ++ [CallHeaderDel key] |}.

(** [w.WriteHeader(code)]: the first call fixes the status and the
    headers sent; a later one is superfluous and changes neither.  (For
    a final status code, as all the codes sent here are; a 1xx code
    would leave the writer open, a code outside 100..999 panics.) *)
Definition WriteHeader (w : ResponseWriter) (code : nat) : ResponseWriter :=
  if wroteHeader w then
    {| handlerHeader := handlerHeader w; wroteHeader := true;
       status := status w; sentHeader := sentHeader w; body := body w;
       calls := calls w ++ [CallWriteHeader code] |}
  else
    {| handlerHeader := handlerHeader w; wroteHeader := true;
       status := code; sentHeader := handlerHeader w; body := body w;
       calls := calls w ++ [CallWriteHeader code] |}.

(** [w.Write(data)]: calls [w.WriteHeader(StatusOK)] first when no status
    line went out yet, then appends to the body.  (The server's writer
    drops the bytes when the status sent allows no body, or when they
    exceed a Content-Length declared before; the statuses the program
    sends allow one, and the body facts below are on a fresh writer.) *)
Definition Write (w : ResponseWriter) (data : string) : ResponseWriter :=
  let w1 := if wroteHeader w then w else WriteHeader w StatusOK in
  {| handlerHeader := handlerHeader w1; wroteHeader := wroteHeader w1;
     status := status w1; sentHeader := sentHeader w1;
     body := body w1 ++ data;
     calls := calls w1 ++ [CallWrite data] |}.

(** [fmt.Fprintln(w, s)]: one [Write] of [s] and a line feed. *)
Definition Fprintln (w : ResponseWriter) (s : string) : ResponseWriter :=
  Write w (s ++ Strings.newline).

(** [http.Error(w, error, code)] *)
Definition Error (w : ResponseWriter) (error : string) (code : nat) : ResponseWriter :=
  let w := DelHeader w "Content-Length" in
  let w := SetHeader w "Content-Type" "text/plain; charset=utf-8" in
  let w := SetHeader w "X-Content-Type-Options" "nosniff" in
  let w := WriteHeader w code in
  Fprintln w error.

(** [http.NotFound(w, r)] *)
Definition NotFound (w : ResponseWriter) (r : Request) : ResponseWriter :=
  Error w "404 page not found" StatusNotFound.

(** *** Redirects *)

Definition hexDigit (upper : bool) (n : N) : ascii :=
  if (n <? 10)%N then ascii_of_N (48 + n)
  else ascii_of_N ((if upper then 55 else 87) + n).

(** [%XX] for one byte. *)
Definition percentHex (upper : bool) (c : ascii) : string :=
  String "%" (String (hexDigit upper (N_of_ascii c / 16))
               (String (hexDigit upper (N_of_ascii c mod 16)) EmptyString)).

(** [shouldEscape(c, encodePath)] of [net/url]: letters, digits, the marks
    [-_.~] and the reserved bytes other than [?] pass. *)
Definition shouldEscapePath (c : ascii) : bool :=
  negb (isLower c || isUpper c || isDigit c
        || existsb (Ascii.eqb c) (list_ascii_of_string "-_.~$&+,/:;=@")).

Fixpoint escapePath (s : string) : string :=
  match s with
  | EmptyString => EmptyString
  | String c rest =>
      if shouldEscapePath c then percentHex true c ++ escapePath rest
      else String c (escapePath rest)
  end.

(** [u.String()] for a URL that has a path and a query only, as the mux
    builds it for a redirect. *)
Definition URL_String (u : URL) : string :=
  (if String.eqb (Path u) "*" then "*" else escapePath (Path u))
  ++ (if String.eqb (RawQuery u) "" then "" else "?" ++ RawQuery u).

(** [hexEscapeNonASCII]: a byte from 0x80 up becomes [%xx]. *)
Fixpoint hexEscapeNonASCII (s : string) : string :=
  match s with
  | EmptyString => EmptyString
  | String c rest =>
      if (128 <=? N_of_ascii c)%N then percentHex false c ++ hexEscapeNonASCII rest
      else String c (hexEscapeNonASCII rest)
  end.

(** [htmlEscape]: the five bytes HTML gives a meaning to become entities. *)
Fixpoint htmlEscape (s : string) : string :=
  match s with
  | EmptyString => EmptyString
  | String c rest =>
      (if Ascii.eqb c "&"%char then "&amp;"
       else if Ascii.eqb c "<"%char then "&lt;"
       else if Ascii.eqb c ">"%char then "&gt;"
       else if Ascii.eqb c (ascii_of_nat 34) then "&#34;"
       else if Ascii.eqb c "'"%char then "&#39;"
       else String c EmptyString)
      ++ htmlEscape rest
  end.

(** [http.Redirect(w, r, url, code)], for a target that is a rooted, clean,
    escaped path with an optional query (what the mux passes): Location
    is set; a GET or HEAD request gets an HTML content type unless one was
    set before; the status line goes out; a GET request gets a short HTML
    body.  [Redirect] first makes a relative target absolute and cleans
    it, which leaves the mux's targets as they are; that step is not
    modelled. *)
Definition Redirect (w : ResponseWriter) (r : Request) (url : string) (code : nat)
  : ResponseWriter :=
  let hadCT := bool_decide (is_Some (handlerHeader w !! "Content-Type")) in
  let w := SetHeader w "Location" (hexEscapeNonASCII url) in
  let w := if negb hadCT
              && (String.eqb (Method r) "GET" || String.eqb (Method r) "HEAD")
           then SetHeader w "Content-Type" "text/html; charset=utf-8"
           else w in
  let w := WriteHeader w code in
  if negb hadCT && String.eqb (Method r) "GET" then
    Fprintln w ("<a href=" ++ Strings.quote ++ htmlEscape url ++ Strings.quote
                ++ ">" ++ StatusText code ++ "</a>." ++ Strings.newline)
  else w.

(** *** Handlers and the mux *)

Definition HandlerFunc : Type := ResponseWriter -> Request -> ResponseWriter.

(** [http.RedirectHandler(url, code)] *)
Definition RedirectHandler (url : string) (code : nat) : HandlerFunc :=
  fun w r => Redirect w r url code.

(** [cleanPath(p)] of the mux: the canonical path for [p], rooted and
    without [.] and [..] elements; a trailing slash is kept. *)
Definition cleanPath (p : string) : string :=
  if String.eqb p "" then "/"
  else
    let p := match p with
             | String c _ => if Ascii.eqb c "/"%char then p else "/" ++ p
             | EmptyString => p
             end in
    let np := GoPath.Clean p in
    if Strings.endsInSlash p && negb (String.eqb np "/") then
      if (String.length p =? String.length np + 1)%nat && Strings.HasPrefix p np
      then p
      else np ++ "/"
    else np.

Section Mux.
(** The pattern table does not look into the handlers it stores. *)
Context {T : Type}.

Record muxEntry := mkMuxEntry {
  h : T;
  pattern : string
}.

(** [m] holds every registration under its pattern; [es] holds the
    entries whose pattern ends in a slash, longest pattern first. *)
Record ServeMux := mkServeMux {
  m : gmap string muxEntry;
  es : list muxEntry
}.

Definition NewServeMux : ServeMux := {| m := ∅; es := [] |}.

(** [appendSorted(es, e)]: insert [e] before the first entry with a
    shorter pattern ([sort.Search] finds that index in the sorted slice;
    the scan from the front finds the same one). *)
Fixpoint appendSorted (es : list muxEntry) (e : muxEntry) : list muxEntry :=
  match es with
  | [] => [e]
  | e' :: rest =>
      if (String.length (pattern e') <? String.length (pattern e))%nat
      then e :: e' :: rest
      else e' :: appendSorted rest e
  end.

(** [mux.Handle(pattern, handler)], which [mux.HandleFunc] calls; [None]
    is the panic on an empty pattern or on a pattern registered before.
    A pattern that does not start with a slash names a host and turns on
    host matching in the library; the program registers none, and that
    flag is not part of the table here.  A handler is a value of [T],
    never nil, so the panic on a nil handler has no case; this is the
    table of the mux that takes a pattern as a plain path, as the
    program's three patterns are. *)
Definition Handle (mux : ServeMux) (pat : string) (handler : T) : option ServeMux :=
  if String.eqb pat "" then None
  else match m mux !! pat with
       | Some _ => None
       | None =>
           let e := {| h := handler; pattern := pat |} in
           Some {| m := <[pat := e]> (m mux);
                   es := if Strings.endsInSlash pat
                         then appendSorted (es mux) e else es mux |}
       end.

(** The loop of [match] over [es]. *)
Fixpoint matchSubtree (es : list muxEntry) (path : string) : option muxEntry :=
  match es with
  | [] => None
  | e :: rest =>
      if Strings.HasPrefix path (pattern e) then Some e
      else matchSubtree rest path
  end.

(** [mux.match(path)]: the exact entry if there is one, else the first
    (so the longest) subtree entry that is a prefix of the path. *)
Definition match_ (mux : ServeMux) (path : string) : option muxEntry :=
  match m mux !! path with
  | Some v => Some v
  | None => matchSubtree (es mux) path
  end.
(** [mux.shouldRedirectRLocked(host, path)]: nothing is registered under
    the path, something is under the path with a slash added.  (The keys
    qualified by a host, which the library tries as well, are not part of
    the table here.) *)
Definition shouldRedirect (mux : ServeMux) (path : string) : bool :=
  match m mux !! path with
  | Some _ => false
  | None =>
      if String.eqb path "" then false
      else match m mux !! (path ++ "/") with
           | Some _ => negb (Strings.endsInSlash path)
           | None => false
           end
  end.

(** [mux.redirectToPathSlash(host, path, u)] *)
Definition redirectToPathSlash (mux : ServeMux) (path : string) (u : URL)
  : option URL :=
  if shouldRedirect mux path
  then Some {| Path := path ++ "/"; RawQuery := RawQuery u |}
  else None.

(** What [mux.Handler(r)] decides: an entry of the table, a redirect to
    another URL, or nothing. *)
Inductive Resolution :=
| Matched (e : muxEntry)
| Redirected (u : URL)
| Unmatched.

(** [mux.handler(host, path)], on a table without host patterns. *)
Definition handler (mux : ServeMux) (path : string) : Resolution :=
  match match_ mux path with
  | Some e => Matched e
  | None => Unmatched
  end.

(** [mux.Handler(r)]: a CONNECT request is matched on its path as it is;
    any other request has its path cleaned, and is sent to the cleaned
    path when that is another one. *)
Definition resolve (mux : ServeMux) (r : Request) : Resolution :=
  if String.eqb (Method r) "CONNECT" then
    match redirectToPathSlash mux (Path (Url r)) (Url r) with
    | Some u => Redirected u
    | None => handler mux (Path (Url r))
    end
  else
    let path := cleanPath (Path (Url r)) in
    match redirectToPathSlash mux path (Url r) with
    | Some u => Redirected u
    | None =>
        if negb (String.eqb path (Path (Url r)))
        then Redirected {| Path := path; RawQuery := RawQuery (Url r) |}
        else handler mux (Path (Url r))
    end.
End Mux.

Arguments muxEntry : clear implicits.
Arguments ServeMux : clear implicits.
Arguments Resolution : clear implicits.

(** [mux.Handler(r)] as a handler: the matched one, a redirect handler, or
    [NotFoundHandler()].  (The redirect is sent with 307; releases before
    that change sent 301.) *)
Definition Handler (mux : ServeMux HandlerFunc) (r : Request) : HandlerFunc :=
  match resolve mux r with
  | Matched e => h e
  | Redirected u => RedirectHandler (URL_String u) StatusTemporaryRedirect
  | Unmatched => NotFound
  end.

(** [mux.ServeHTTP(w, r)], for a request whose RequestURI is not [*]
    (to that one the mux answers 400 without resolving; requests here
    are the others). *)
Definition ServeHTTP (mux : ServeMux HandlerFunc) (w : ResponseWriter) (r : Request)
  : ResponseWriter :=
  Handler mux r w r.

End NetHttp.


(** ** [main.go] *)

Module Main.
Import NetHttp.

Definition home (w : ResponseWriter) (r : Request) : ResponseWriter :=
  if negb (String.eqb (Path (Url r)) "/") then
    NotFound w r
  else
    Write w "Hello, World!".

Definition snippetView (w : ResponseWriter) (r : Request) : ResponseWriter :=
  Write w "Display a snippet...".

Definition snippetCreate (w : ResponseWriter) (r : Request) : ResponseWriter :=
  if negb (String.eqb (Method r) "POST") then
    let w := SetHeader w "Allow" MethodPost in
    Error w "Method Not Allowed" StatusMethodNotAllowed
  else
    Write w "Create a new snippet...".

(** The three registrations of [main], over any type of handler: the
    table is built without looking into the handlers. *)
Definition routes {T : Type} (hHome hView hCreate : T) : option (ServeMux T) :=
  mux ← Handle NewServeMux "/" hHome;
  mux ← Handle mux "/snippet/view" hView;
  Handle mux "/snippet/create" hCreate.

(** [mux] as [main] builds it. *)
Definition mux : option (ServeMux HandlerFunc) :=
  routes home snippetView snippetCreate.

(** The mux of [main] serving one request on a fresh writer, as it does
    for each request the server hands to it.  [None] would be a panic
    while registering. *)
Definition serve (r : Request) : option ResponseWriter :=
  mux ← mux; Some (ServeHTTP mux newResponseWriter r).

End Main.

(** ** The earlier revision: one route, [home] without the path check *)

Module Part000.
Import NetHttp.

Definition home (w : ResponseWriter) (r : Request) : ResponseWriter :=
  Write w "Hello, World!".

Definition mux : option (ServeMux HandlerFunc) :=
  Handle NewServeMux "/" home.

(** That mux serving one request on a fresh writer. *)
Definition serve (r : Request) : option ResponseWriter :=
  mux ← mux; Some (ServeHTTP mux newResponseWriter r).

End Part000.

(** ** The pattern table's vocabulary and invariant *)

Module MuxTable.
Import Strings NetHttp.

Section Table.
Context {T : Type}.
Implicit Types (mux : ServeMux T) (e : muxEntry T) (path pat : string).

(** [e] is registered under its own pattern. *)
Definition registered mux e : Prop := m mux !! pattern e = Some e.

(** The glossary's two kinds of match. *)
Definition exactMatch e path : Prop := pattern e = path.
Definition subtreeMatch e path : Prop :=
  endsInSlash (pattern e) = true /\ HasPrefix path (pattern e) = true.

(** [es] from the longest pattern to the shortest. *)
Definition longestFirst (l : list (muxEntry T)) : Prop :=
  StronglySorted
    (fun a b => String.length (pattern b) <= String.length (pattern a)) l.

(** What [Handle] maintains. *)
Record wf mux : Prop := mkWf {
  wf_key : forall pat e, m mux !! pat = Some e -> pattern e = pat;
  wf_es : forall e, e ∈ es mux <-> registered mux e /\ endsInSlash (pattern e) = true;
  wf_sorted : longestFirst (es mux)
}.

End Table.
End MuxTable.

(** A request with the given method and path, for the examples. *)
Definition exampleRequest (method path : string) : NetHttp.Request :=
  {| NetHttp.Method := method;
     NetHttp.Url := {| NetHttp.Path := path; NetHttp.RawQuery := "" |};
     NetHttp.Host := "localhost:4000";
     NetHttp.RequestHeader := ∅;
     NetHttp.Body := "" |}.

(** The same request as it arrives from another client: other host,
    query, headers and body. *)
Definition otherClientRequest (method path : string) : NetHttp.Request :=
  {| NetHttp.Method := method;
     NetHttp.Url := {| NetHttp.Path := path; NetHttp.RawQuery := "id=7" |};
     NetHttp.Host := "127.0.0.1:4000";
     NetHttp.RequestHeader := {[ "User-Agent" := ["curl/8.5.0"] ]};
     NetHttp.Body := "title=snail" |}.

(** ** Paths in canonical form, said without the code that cleans *)

Module Canonical.

(** No slash in the string. *)
Fixpoint noSlash (s : string) : bool :=
  match s with
  | EmptyString => true
  | String c rest => negb (Ascii.eqb c "/"%char) && noSlash rest
  end.

(** A proper path element: not empty, not [.], not [..], no slash in it. *)
Definition isElement (s : string) : bool :=
  noSlash s
  && negb (String.eqb s "") && negb (String.eqb s ".") && negb (String.eqb s "..").

(** Each element behind its own slash. *)
Fixpoint joinRooted (l : list string) : string :=
  match l with
  | [] => EmptyString
  | x :: rest => "/" ++ x ++ joinRooted rest
  end.

(** A canonical path: the root alone, or proper elements, each behind a
    slash, with or without one more slash at the end. *)
Definition canonicalPath (p : string) : Prop :=
  p = "/"
  \/ exists segs,
       segs <> [] /\ Forall (fun x => isElement x = true) segs
       /\ (p = joinRooted segs \/ p = joinRooted segs ++ "/").

End Canonical.

(** * Facts about the library fragment *)

Module StringsFacts.
Import Strings.

Lemma substring_0_0 (s : string) : String.substring 0 0 s = "".
Proof. by destruct s. Qed.

(** [HasPrefix s p] holds exactly when [s] is [p] followed by something. *)
Lemma HasPrefix_spec (s p : string) :
  HasPrefix s p = true <-> exists t, s = p ++ t.
Proof.
  unfold HasPrefix. revert s. induction p as [|c p IH]; intros s.
  - cbn [String.length]. rewrite substring_0_0. cbn. split; eauto.
  - destruct s as [|d s].
    + cbn. split; [discriminate | intros [t Ht]; discriminate].
    + cbn [String.length String.substring String.eqb].
      change (S (String.length p) <=? S (String.length s))%nat
        with (String.length p <=? String.length s)%nat.
      specialize (IH s). split.
      * intros Hb. apply andb_true_iff in Hb as [Hlen Hb].
        apply andb_true_iff in Hb as [Hc Hb].
        apply Ascii.eqb_eq in Hc as ->.
        destruct IH as [IH _]. destruct IH as [t ->].
        { by rewrite Hlen, Hb. }
        by exists t.
      * intros [t Ht]. cbn in Ht. injection Ht as -> ->.
        destruct IH as [_ IH]. specialize (IH (ex_intro _ t eq_refl)).
        apply andb_true_iff in IH as [-> ->].
        by rewrite Ascii.eqb_refl.
Qed.

Lemma HasPrefix_refl (s : string) : HasPrefix s s = true.
Proof.
  apply HasPrefix_spec. exists "".
  induction s as [|c s IH]; [done | ].
  change (String c s = String c (s ++ "")). by rewrite <- IH.
Qed.

(** A rooted path is one that starts with a slash. *)
Lemma HasPrefix_slash (s : string) :
  HasPrefix s "/" = true <-> exists t, s = String "/" t.
Proof. rewrite HasPrefix_spec. cbn. done. Qed.

End StringsFacts.

Module CleanFacts.
Import Strings GoPath NetHttp Canonical.

Lemma sapp_cons (c : ascii) (s t : string) : String c s ++ t = String c (s ++ t).
Proof. reflexivity. Qed.

Lemma sapp_nil_r (s : string) : s ++ "" = s.
Proof. induction s as [|c s IH]; [done |]. by rewrite sapp_cons, IH. Qed.

Lemma sapp_assoc (s t u : string) : (s ++ t) ++ u = s ++ (t ++ u).
Proof. induction s as [|c s IH]; [done |]. by rewrite !sapp_cons, IH. Qed.

Lemma elements_not_nil (s : string) : elements s <> [].
Proof.
  induction s as [|c s IH]; cbn [elements]; [done |].
  destruct (Ascii.eqb c "/"); [done |]. by destruct (elements s).
Qed.

Lemma elements_app_noSlash (s t : string) :
  noSlash s = true ->
  elements (s ++ t)
  = match elements t with
    | x :: xs => (s ++ x) :: xs
    | [] => [s]
    end.
Proof.
  induction s as [|c s IH]; intros Hs.
  - change ("" ++ t) with t. destruct (elements t) eqn:E; [by apply elements_not_nil in E | done].
  - cbn [noSlash] in Hs. apply andb_true_iff in Hs as [Hc Hs].
    rewrite sapp_cons. cbn [elements].
    destruct (Ascii.eqb c "/"); [done |]. rewrite (IH Hs).
    destruct (elements t) eqn:E; [by apply elements_not_nil in E | done].
Qed.

Lemma elements_joinRooted (l : list string) :
  Forall (fun x => noSlash x = true) l ->
  elements (joinRooted l) = "" :: l.
Proof.
  induction 1 as [|x l Hx Hl IH]; [done |].
  cbn [joinRooted]. change ("/" ++ x ++ joinRooted l) with (String "/" (x ++ joinRooted l)).
  cbn [elements]. change (Ascii.eqb "/" "/") with true. cbn match.
  rewrite (elements_app_noSlash _ _ Hx), IH. by rewrite sapp_nil_r.
Qed.

Lemma joinRooted_app (l1 l2 : list string) :
  joinRooted (l1 ++ l2)%list = joinRooted l1 ++ joinRooted l2.
Proof.
  induction l1 as [|x l1 IH]; [done |].
  cbn [app joinRooted]. rewrite IH. change ("/" ++ ?a) with (String "/" a).
  by rewrite !sapp_cons, sapp_assoc.
Qed.

Lemma isElement_noSlash (x : string) : isElement x = true -> noSlash x = true.
Proof. unfold isElement. intros H. by repeat (apply andb_true_iff in H as [H _]). Qed.

Lemma cleanStep_element (rooted : bool) (stack : list string) (x : string) :
  isElement x = true -> cleanStep rooted stack x = x :: stack.
Proof.
  unfold isElement, cleanStep. intros H.
  apply andb_true_iff in H as [H H3]. apply andb_true_iff in H as [H H2].
  apply andb_true_iff in H as [_ H1].
  apply negb_true_iff in H1, H2, H3. by rewrite H1, H2, H3.
Qed.

Lemma fold_elements (rooted : bool) (l acc : list string) :
  Forall (fun x => isElement x = true) l ->
  fold_left (cleanStep rooted) l acc = (rev l ++ acc)%list.
Proof.
  intros Hl. revert acc. induction Hl as [|x l Hx Hl IH]; intros acc; [done |].
  cbn [fold_left rev]. rewrite (cleanStep_element _ _ _ Hx), IH.
  by rewrite <- app_assoc.
Qed.

Lemma joinElements_joinRooted (l : list string) :
  l <> [] -> "/" ++ joinElements l = joinRooted l.
Proof.
  induction l as [|x l IH]; [done |]. intros _.
  destruct l as [|y l].
  - cbn [joinElements joinRooted]. by rewrite sapp_nil_r.
  - change (joinElements (x :: y :: l)) with (x ++ "/" ++ joinElements (y :: l)).
    cbn [joinRooted] in *. by rewrite IH.
Qed.

(** [Clean] leaves a canonical path without its last slash. *)
Lemma Clean_joinRooted (segs : list string) (trailing : bool) :
  segs <> [] -> Forall (fun x => isElement x = true) segs ->
  Clean (joinRooted segs ++ (if trailing then "/" else "")) = joinRooted segs.
Proof.
  intros Hne Hsegs.
  assert (Hel : elements (joinRooted segs ++ (if trailing then "/" else ""))
                = "" :: (segs ++ (if trailing then [""] else []))%list).
  { destruct trailing.
    - replace (joinRooted segs ++ "/") with (joinRooted (segs ++ [""])%list)
        by (by rewrite joinRooted_app).
      apply elements_joinRooted. apply Forall_app. split.
      + eapply Forall_impl; [exact Hsegs |]. apply isElement_noSlash.
      + by repeat constructor.
    - rewrite sapp_nil_r, List.app_nil_r. apply elements_joinRooted.
      eapply Forall_impl; [exact Hsegs |]. apply isElement_noSlash. }
  destruct segs as [|x segs]; [done |].
  unfold Clean. rewrite Hel.
  cbn [joinRooted]. change ("/" ++ ?a) with (String "/" a). rewrite !sapp_cons.
  cbn [String.eqb]. change (Ascii.eqb "/" "/") with true. cbn match.
  change (fold_left (cleanStep true) ("" :: ?l) []) with (fold_left (cleanStep true) l []).
  rewrite fold_left_app, (fold_elements _ _ _ Hsegs), List.app_nil_r.
  assert (Hdrop : fold_left (cleanStep true) (if trailing then [""] else [])
                    (rev (x :: segs)) = rev (x :: segs)) by (by destruct trailing).
  rewrite Hdrop, rev_involutive.
  change (String "/" (joinElements (x :: segs))) with ("/" ++ joinElements (x :: segs)).
  by rewrite joinElements_joinRooted.
Qed.

Lemma lastByte_app (s t : string) :
  t <> "" -> lastByte (s ++ t) = lastByte t.
Proof.
  intros Ht. induction s as [|a s IH]; [done |].
  rewrite sapp_cons. cbn [lastByte]. rewrite IH.
  destruct (s ++ t) eqn:E; [| done].
  destruct s; [by change ("" ++ t) with t in E | discriminate E].
Qed.

Lemma endsInSlash_app_slash (s : string) : endsInSlash (s ++ "/") = true.
Proof. unfold endsInSlash. by rewrite lastByte_app. Qed.

Lemma endsInSlash_noSlash (x : string) :
  noSlash x = true -> endsInSlash x = false.
Proof.
  unfold endsInSlash. induction x as [|c x IH]; [done |].
  cbn [noSlash]. intros [Hc Hx]%andb_true_iff. apply negb_true_iff in Hc.
  destruct x as [|d x]; [cbn; by rewrite Hc |].
  change (lastByte (String c (String d x))) with (lastByte (String d x)).
  by apply IH.
Qed.

Lemma isElement_not_empty (x : string) : isElement x = true -> x <> "".
Proof.
  unfold isElement. intros H ->. by rewrite andb_false_r in H.
Qed.

Lemma endsInSlash_joinRooted (segs : list string) :
  segs <> [] -> Forall (fun x => isElement x = true) segs ->
  endsInSlash (joinRooted segs) = false.
Proof.
  intros Hne Hsegs.
  destruct (exists_last Hne) as (init & x & ->).
  apply Forall_app in Hsegs as [_ Hx]. rewrite Forall_singleton in Hx.
  rewrite joinRooted_app. cbn [joinRooted]. rewrite sapp_nil_r.
  rewrite <- sapp_assoc. unfold endsInSlash.
  rewrite lastByte_app by (by apply isElement_not_empty).
  by apply endsInSlash_noSlash, isElement_noSlash.
Qed.

Lemma joinRooted_not_root (segs : list string) :
  segs <> [] -> Forall (fun x => isElement x = true) segs ->
  String.eqb (joinRooted segs) "/" = false.
Proof.
  intros Hne Hsegs. destruct segs as [|x segs]; [done |].
  apply Forall_cons in Hsegs as [Hx _].
  apply isElement_not_empty in Hx. destruct x as [|c x]; [done |].
  reflexivity.
Qed.

(** [cleanPath] leaves a canonical path as it is: the mux does not send
    such a path elsewhere. *)
Lemma cleanPath_canonical (p : string) :
  canonicalPath p -> cleanPath p = p.
Proof.
  intros [-> | (segs & Hne & Hsegs & Hp)]; [reflexivity |].
  assert (Hhead : exists rest, joinRooted segs = String "/" rest).
  { destruct segs as [|x segs]; [done |]. by eexists. }
  destruct Hhead as [rest Hhead].
  unfold cleanPath. destruct Hp as [-> | ->].
  - rewrite Hhead. cbn [String.eqb]. change (Ascii.eqb "/" "/") with true. cbn match.
    rewrite <- Hhead.
    pose proof (Clean_joinRooted segs false Hne Hsegs) as HClean.
    rewrite sapp_nil_r in HClean. rewrite HClean.
    by rewrite (endsInSlash_joinRooted _ Hne Hsegs).
  - rewrite Hhead, sapp_cons. cbn [String.eqb]. change (Ascii.eqb "/" "/") with true.
    cbn match. rewrite <- sapp_cons, <- Hhead.
    rewrite (Clean_joinRooted segs true Hne Hsegs).
    rewrite endsInSlash_app_slash, (joinRooted_not_root _ Hne Hsegs).
    cbn [negb andb]. by destruct (_ && _).
Qed.

(** A canonical path starts with a slash. *)
Lemma canonicalPath_rooted (p : string) :
  canonicalPath p -> exists rest, p = String "/" rest.
Proof.
  intros [-> | (segs & Hne & _ & Hp)]; [by eexists |].
  destruct segs as [|x segs]; [done |].
  destruct Hp as [-> | ->]; by eexists.
Qed.

Lemma length_sapp (s t : string) :
  String.length (s ++ t) = String.length s + String.length t.
Proof. induction s as [|c s IH]; [done |]. rewrite sapp_cons. cbn. by rewrite IH. Qed.

Lemma elements_noSlash (s : string) :
  Forall (fun x => noSlash x = true) (elements s).
Proof.
  induction s as [|c s IH]; [by repeat constructor |].
  cbn [elements]. destruct (Ascii.eqb c "/") eqn:Hc; [by constructor |].
  destruct (elements s) as [|x xs].
  { constructor; [cbn [noSlash]; by rewrite Hc | constructor]. }
  apply Forall_cons in IH as [Hx Hxs].
  constructor; [| done]. cbn [noSlash]. by rewrite Hc, Hx.
Qed.

(** On a rooted path every element [Clean] keeps is a proper one. *)
Lemma cleanStep_rooted_keeps (stack : list string) (e : string) :
  noSlash e = true ->
  Forall (fun x => isElement x = true) stack ->
  Forall (fun x => isElement x = true) (cleanStep true stack e).
Proof.
  intros He Hstack. unfold cleanStep.
  destruct (String.eqb e "") eqn:H1; [done |].
  destruct (String.eqb e ".") eqn:H2; [done |]. cbn [orb].
  destruct (String.eqb e "..") eqn:H3.
  - destruct stack as [|top below]; [done |]. cbn [orb].
    by apply Forall_cons in Hstack as [_ ?].
  - constructor; [| done]. unfold isElement. by rewrite He, H1, H2, H3.
Qed.

Lemma fold_rooted_keeps (l stack : list string) :
  Forall (fun x => noSlash x = true) l ->
  Forall (fun x => isElement x = true) stack ->
  Forall (fun x => isElement x = true) (fold_left (cleanStep true) l stack).
Proof.
  intros Hl. revert stack. induction Hl as [|e l He Hl IH]; intros stack Hs; [done |].
  cbn [fold_left]. by apply IH, cleanStep_rooted_keeps.
Qed.

(** What [Clean] returns for a rooted path: the root, or proper elements
    each behind a slash. *)
Lemma Clean_rooted (rest : string) :
  Clean (String "/" rest) = "/"
  \/ exists segs, segs <> [] /\ Forall (fun x => isElement x = true) segs
                  /\ Clean (String "/" rest) = joinRooted segs.
Proof.
  unfold Clean. cbn [String.eqb]. change (Ascii.eqb "/" "/") with true. cbn match.
  pose proof (fold_rooted_keeps (elements (String "/" rest)) []
                (elements_noSlash _) (List.Forall_nil _)) as Hkept.
  apply Forall_rev in Hkept.
  destruct (rev (fold_left (cleanStep true) (elements (String "/" rest)) []))
    as [|x segs] eqn:E.
  - by left.
  - right. exists (x :: segs). split; [done |]. split; [done |].
    by apply joinElements_joinRooted.
Qed.

(** Whatever the path, [cleanPath] returns a canonical one. *)
Lemma cleanPath_is_canonical (p : string) : canonicalPath (cleanPath p).
Proof.
  unfold cleanPath. destruct (String.eqb_spec p "") as [-> | Hne]; [by left |].
  set (p' := match p with
             | String c _ => if Ascii.eqb c "/" then p else "/" ++ p
             | EmptyString => p
             end).
  assert (Hrooted : exists rest, p' = String "/" rest).
  { subst p'. destruct p as [|c p]; [done |].
    destruct (Ascii.eqb_spec c "/") as [-> | _]; by eexists. }
  destruct Hrooted as [rest Hp']. rewrite Hp'.
  destruct (Clean_rooted rest) as [Hroot | (segs & Hsegs & Hreal & Hclean)].
  - rewrite Hroot. rewrite andb_false_r. by left.
  - rewrite Hclean.
    assert (Hcan : forall trailing : bool,
               canonicalPath (joinRooted segs ++ (if trailing then "/" else ""))).
    { intros trailing. right. exists segs. split; [done |]. split; [done |].
      destruct trailing; [by right | left; by rewrite sapp_nil_r]. }
    destruct (endsInSlash (String "/" rest) && _) eqn:Hslash.
    + destruct (_ && HasPrefix _ _) eqn:Hfast; [| apply (Hcan true)].
      apply andb_true_iff in Hslash as [Hslash _].
      apply andb_true_iff in Hfast as [Hlen Hpre].
      apply Nat.eqb_eq in Hlen.
      apply StringsFacts.HasPrefix_spec in Hpre as [t Ht].
      rewrite Ht, length_sapp in Hlen.
      destruct t as [|c [|d t]]; cbn in Hlen; try lia.
      rewrite Ht in Hslash. unfold endsInSlash in Hslash.
      rewrite lastByte_app in Hslash by done. cbn in Hslash.
      apply Ascii.eqb_eq in Hslash as ->. rewrite Ht. apply (Hcan true).
    + specialize (Hcan false). by rewrite sapp_nil_r in Hcan.
Qed.

(** A path is left alone by [cleanPath] exactly when it is canonical. *)
Lemma cleanPath_fixed_iff (p : string) : cleanPath p = p <-> canonicalPath p.
Proof.
  split; [| apply cleanPath_canonical].
  intros <-. apply cleanPath_is_canonical.
Qed.

End CleanFacts.


Module MuxFacts.
Import Strings StringsFacts NetHttp MuxTable.

Section Mux.
Context {T : Type}.
Implicit Types (mux : ServeMux T) (e : muxEntry T) (path pat : string).

Lemma elem_of_appendSorted (l : list (muxEntry T)) e x :
  x ∈ appendSorted l e <-> x = e \/ x ∈ l.
Proof.
  induction l as [|a l IH]; cbn [appendSorted].
  - rewrite list_elem_of_singleton, elem_of_nil. tauto.
  - destruct (_ <? _)%nat; rewrite !elem_of_cons; [tauto | rewrite IH; tauto].
Qed.

Lemma appendSorted_longestFirst (l : list (muxEntry T)) e :
  longestFirst l -> longestFirst (appendSorted l e).
Proof.
  unfold longestFirst. induction 1 as [|a l Hl IH Ha]; cbn [appendSorted].
  - repeat constructor.
  - destruct (String.length (pattern a) <? String.length (pattern e))%nat eqn:Hlt.
    + apply Nat.ltb_lt in Hlt. constructor; [by constructor |].
      constructor; [lia |].
      eapply Forall_impl; [exact Ha |]. cbn. intros; lia.
    + apply Nat.ltb_ge in Hlt. constructor; [exact IH |].
      apply Forall_forall. intros x Hx.
      apply elem_of_appendSorted in Hx as [-> | Hx]; [lia |].
      rewrite Forall_forall in Ha. by apply Ha.
Qed.

Lemma wf_NewServeMux : wf (NewServeMux (T := T)).
Proof.
  split; cbn.
  - intros pat e. by rewrite lookup_empty.
  - intros e. unfold registered. cbn. rewrite lookup_empty.
    split; [by intros ?%elem_of_nil | by intros [? _]].
  - constructor.
Qed.

Lemma wf_Handle mux pat hd mux' :
  wf mux -> Handle mux pat hd = Some mux' -> wf mux'.
Proof.
  intros [Hkey Hes Hsorted]. unfold Handle.
  destruct (String.eqb pat ""); [done |].
  destruct (m mux !! pat) as [old|] eqn:Hfree; [done |].
  intros [= <-]. set (e0 := {| h := hd; pattern := pat |}).
  assert (Hreg : forall e, registered {| m := <[pat := e0]> (m mux);
                                          es := [] |} e
                           <-> e = e0 \/ registered mux e).
  { intros e. unfold registered. cbn. rewrite lookup_insert.
    case_decide as Hp.
    - split.
      + intros [= <-]. by left.
      + intros [-> | Hr]; [done |]. rewrite <- Hp, Hfree in Hr. done.
    - split; [by right |]. intros [-> | Hr]; [done | exact Hr]. }
  split; cbn.
  - intros p e. rewrite lookup_insert. case_decide as Hp.
    + intros [= <-]. by subst.
    + apply Hkey.
  - intros e. unfold registered in *. cbn in *. rewrite Hreg.
    destruct (endsInSlash pat) eqn:Hslash.
    + rewrite elem_of_appendSorted, Hes. unfold registered. split.
      * intros [-> | [Hr Hs]]; [split; [by left | exact Hslash] | split; [by right | done]].
      * intros [[-> | Hr] Hs]; [by left | by right].
    + rewrite Hes. unfold registered. split.
      * intros [Hr Hs]. split; [by right | done].
      * intros [[-> | Hr] Hs]; [cbn in Hs; congruence | done].
  - destruct (endsInSlash pat); [by apply appendSorted_longestFirst | done].
Qed.

(** The scan of [es] stops at the first prefix: nothing before it is one. *)
Lemma matchSubtree_Some (l : list (muxEntry T)) path e :
  matchSubtree l path = Some e ->
  e ∈ l /\ HasPrefix path (pattern e) = true.
Proof.
  induction l as [|a l IH]; cbn; [done |].
  destruct (HasPrefix path (pattern a)) eqn:Ha.
  - intros [= <-]. split; [by left | done].
  - intros [Hin Hp]%IH. split; [by right | done].
Qed.

Lemma matchSubtree_None (l : list (muxEntry T)) path :
  matchSubtree l path = None <->
  forall e, e ∈ l -> HasPrefix path (pattern e) = false.
Proof.
  induction l as [|a l IH]; cbn.
  - split; [by intros _ e ?%elem_of_nil | done].
  - destruct (HasPrefix path (pattern a)) eqn:Ha.
    + split; [done |]. intros Hall. specialize (Hall a). rewrite Ha in Hall.
      by discriminate Hall; left.
    + rewrite IH. split.
      * intros Hall e [-> | Hin]%elem_of_cons; [done | by apply Hall].
      * intros Hall e Hin. apply Hall. by right.
Qed.

(** On a list sorted longest first, the scan returns a longest prefix. *)
Lemma matchSubtree_longest (l : list (muxEntry T)) path e :
  longestFirst l -> e ∈ l -> HasPrefix path (pattern e) = true ->
  exists e', matchSubtree l path = Some e'
             /\ e' ∈ l
             /\ HasPrefix path (pattern e') = true
             /\ String.length (pattern e) <= String.length (pattern e').
Proof.
  unfold longestFirst. induction 1 as [|a l Hl IH Ha]; [by intros ?%elem_of_nil |].
  intros Hin Hp. cbn. destruct (HasPrefix path (pattern a)) eqn:Hpa.
  - exists a. split; [done |]. split; [by left |]. split; [done |].
    apply elem_of_cons in Hin as [-> | Hin]; [lia |].
    rewrite Forall_forall in Ha. by apply Ha.
  - apply elem_of_cons in Hin as [-> | Hin]; [congruence |].
    destruct (IH Hin Hp) as (e' & Hm & Hin' & Hp' & Hlen).
    exists e'. repeat split; [done | by right | done | done].
Qed.

(** (a) An entry registered under exactly the path is the one returned. *)
Lemma match_exact mux path e :
  m mux !! path = Some e -> match_ mux path = Some e.
Proof. unfold match_. by intros ->. Qed.

(** (b) With no entry under the path itself, the longest subtree pattern
    that is a prefix of the path is returned. *)
Lemma match_longest_subtree mux path e :
  wf mux -> m mux !! path = None ->
  registered mux e -> subtreeMatch e path ->
  exists e', match_ mux path = Some e'
             /\ registered mux e' /\ subtreeMatch e' path
             /\ String.length (pattern e) <= String.length (pattern e').
Proof.
  intros Hwf Hnone Hreg [Hslash Hp]. unfold match_. rewrite Hnone.
  assert (Hin : e ∈ es mux) by (by apply (wf_es _ Hwf)).
  destruct (matchSubtree_longest _ _ _ (wf_sorted _ Hwf) Hin Hp)
    as (e' & Hm & Hin' & Hp' & Hlen).
  apply (wf_es _ Hwf) in Hin' as [Hreg' Hslash'].
  exists e'. by repeat split.
Qed.

(** (c) A path no pattern matches has no handler. *)
Lemma match_not_found mux path :
  wf mux ->
  (forall e, registered mux e -> ~ exactMatch e path /\ ~ subtreeMatch e path) ->
  match_ mux path = None.
Proof.
  intros Hwf Hno. unfold match_.
  destruct (m mux !! path) as [e|] eqn:Hex.
  - exfalso. pose proof (wf_key _ Hwf _ _ Hex) as Hpat.
    destruct (Hno e) as [Hne _]; [| by apply Hne].
    unfold registered. by rewrite Hpat.
  - apply matchSubtree_None. intros e Hin.
    apply (wf_es _ Hwf) in Hin as [Hreg Hslash].
    destruct (Hno e Hreg) as [_ Hns].
    destruct (HasPrefix path (pattern e)) eqn:Hp; [| done].
    exfalso. by apply Hns.
Qed.

(** Where no path is sent to a subtree of its own name, [Handler]
    redirects exactly the requests, other than CONNECT, whose path
    [cleanPath] changes. *)
Lemma resolve_without_slash_redirect mux (r : Request) :
  (forall path, shouldRedirect mux path = false) ->
  resolve mux r
  = if String.eqb (Method r) "CONNECT"
       || String.eqb (cleanPath (Path (Url r))) (Path (Url r))
    then handler mux (Path (Url r))
    else Redirected {| Path := cleanPath (Path (Url r));
                       RawQuery := RawQuery (Url r) |}.
Proof.
  intros Hno. unfold resolve, redirectToPathSlash. rewrite !Hno.
  destruct (String.eqb (Method r) "CONNECT"); [reflexivity |]. cbn [orb].
  by destruct (String.eqb (cleanPath (Path (Url r))) (Path (Url r))).
Qed.

End Mux.
End MuxFacts.

(** * The routes of [main] *)

Module RoutesFacts.
Import Strings StringsFacts NetHttp MuxTable MuxFacts.

Section Routes.
Context {T : Type} (hHome hView hCreate : T).

(** The three registrations succeed, and leave this table. *)
Lemma routes_table :
  Main.routes hHome hView hCreate
  = Some {| m := <["/snippet/create" :=
                      {| h := hCreate; pattern := "/snippet/create" |}]>
                   (<["/snippet/view" :=
                        {| h := hView; pattern := "/snippet/view" |}]>
                      (<["/" := {| h := hHome; pattern := "/" |}]> ∅));
            es := [{| h := hHome; pattern := "/" |}] |}.
Proof. reflexivity. Qed.

Lemma routes_wf mux :
  Main.routes hHome hView hCreate = Some mux -> wf mux.
Proof.
  unfold Main.routes. intros Hr.
  apply bind_Some in Hr as (m1 & H1 & Hr).
  apply bind_Some in Hr as (m2 & H2 & Hr).
  eapply wf_Handle; [| exact Hr].
  eapply wf_Handle; [| exact H2].
  eapply wf_Handle; [| exact H1].
  apply wf_NewServeMux.
Qed.

Lemma routes_registered mux e :
  Main.routes hHome hView hCreate = Some mux ->
  registered mux e <->
  e = {| h := hHome; pattern := "/" |}
  \/ e = {| h := hView; pattern := "/snippet/view" |}
  \/ e = {| h := hCreate; pattern := "/snippet/create" |}.
Proof.
  rewrite routes_table. intros [= <-]. unfold registered. cbn [m].
  rewrite !lookup_insert, lookup_empty. split.
  - repeat case_decide; intros Heq; try discriminate Heq;
      injection Heq as <-; auto.
  - intros [-> | [-> | ->]]; reflexivity.
Qed.

(** [match] on the table of [main], path by path. *)
Lemma routes_match mux path :
  Main.routes hHome hView hCreate = Some mux ->
  match_ mux path
  = if String.eqb path "/snippet/view"
    then Some {| h := hView; pattern := "/snippet/view" |}
    else if String.eqb path "/snippet/create"
    then Some {| h := hCreate; pattern := "/snippet/create" |}
    else if HasPrefix path "/"
    then Some {| h := hHome; pattern := "/" |}
    else None.
Proof.
  rewrite routes_table. intros [= <-]. unfold match_. cbn [m es].
  rewrite !lookup_insert, lookup_empty.
  destruct (String.eqb_spec path "/snippet/view") as [-> | Hv]; [reflexivity |].
  destruct (String.eqb_spec path "/snippet/create") as [-> | Hc]; [reflexivity |].
  rewrite decide_False by congruence.
  rewrite decide_False by congruence.
  case_decide as Hroot.
  - subst path. reflexivity.
  - cbn [matchSubtree pattern].
    by destruct (HasPrefix path "/").
Qed.

(** No path is one slash short of a pattern of [main]: the redirect to a
    subtree of the path's own name never applies. *)
Lemma routes_shouldRedirect mux path :
  Main.routes hHome hView hCreate = Some mux ->
  shouldRedirect mux path = false.
Proof.
  rewrite routes_table. intros [= <-]. unfold shouldRedirect. cbn [m].
  destruct (_ !! path); [reflexivity |].
  destruct (String.eqb_spec path "") as [-> | Hne]; [reflexivity |].
  rewrite !lookup_insert, lookup_empty.
  assert (Hslash : endsInSlash (path ++ "/") = true)
    by apply CleanFacts.endsInSlash_app_slash.
  case_decide as H1; [rewrite <- H1 in Hslash; discriminate Hslash |].
  case_decide as H2; [rewrite <- H2 in Hslash; discriminate Hslash |].
  case_decide as H3; [| reflexivity].
  destruct path as [|c [|d path]]; [done | discriminate H3 | discriminate H3].
Qed.

Lemma routes_resolve mux (r : Request) :
  Main.routes hHome hView hCreate = Some mux ->
  resolve mux r
  = if String.eqb (Method r) "CONNECT"
       || String.eqb (cleanPath (Path (Url r))) (Path (Url r))
    then
      if String.eqb (Path (Url r)) "/snippet/view"
      then Matched {| h := hView; pattern := "/snippet/view" |}
      else if String.eqb (Path (Url r)) "/snippet/create"
      then Matched {| h := hCreate; pattern := "/snippet/create" |}
      else if HasPrefix (Path (Url r)) "/"
      then Matched {| h := hHome; pattern := "/" |}
      else Unmatched
    else Redirected {| Path := cleanPath (Path (Url r));
                       RawQuery := RawQuery (Url r) |}.
Proof.
  intros Hr.
  rewrite MuxFacts.resolve_without_slash_redirect
    by (intros p; by apply routes_shouldRedirect).
  unfold handler. rewrite (routes_match _ _ Hr).
  destruct (_ || _); [| reflexivity].
  destruct (Path (Url r) =? "/snippet/view"); [reflexivity |].
  destruct (Path (Url r) =? "/snippet/create"); [reflexivity |].
  by destruct (HasPrefix (Path (Url r)) "/").
Qed.

End Routes.

(** The mux of [main.go] answers with the handler it resolves. *)
Lemma serve_dispatch (r : Request) :
  Main.serve r
  = Some ((if String.eqb (Method r) "CONNECT"
              || String.eqb (cleanPath (Path (Url r))) (Path (Url r))
           then
             if String.eqb (Path (Url r)) "/snippet/view" then Main.snippetView
             else if String.eqb (Path (Url r)) "/snippet/create"
             then Main.snippetCreate
             else if HasPrefix (Path (Url r)) "/" then Main.home
             else NotFound
           else RedirectHandler
                  (URL_String {| Path := cleanPath (Path (Url r));
                                 RawQuery := RawQuery (Url r) |})
                  StatusTemporaryRedirect) newResponseWriter r).
Proof.
  unfold Main.serve, Main.mux. rewrite routes_table. cbn [mbind option_bind].
  unfold ServeHTTP, Handler.
  rewrite (routes_resolve _ _ _ _ _ (routes_table _ _ _)).
  destruct (_ || _); [| reflexivity].
  destruct (Path (Url r) =? "/snippet/view"); [reflexivity |].
  destruct (Path (Url r) =? "/snippet/create"); [reflexivity |].
  by destruct (HasPrefix (Path (Url r)) "/").
Qed.

End RoutesFacts.

(** * The handlers, branch by branch *)

Module HandlerFacts.
Import Strings NetHttp.

Lemma home_root (w : ResponseWriter) (r : Request) :
  Path (Url r) = "/" -> Main.home w r = Write w "Hello, World!".
Proof. unfold Main.home. by intros ->. Qed.

Lemma home_elsewhere (w : ResponseWriter) (r : Request) :
  Path (Url r) <> "/" -> Main.home w r = NotFound w r.
Proof.
  unfold Main.home. intros Hp.
  by destruct (String.eqb_spec (Path (Url r)) "/").
Qed.

Lemma snippetCreate_post (w : ResponseWriter) (r : Request) :
  Method r = "POST" -> Main.snippetCreate w r = Write w "Create a new snippet...".
Proof. unfold Main.snippetCreate. by intros ->. Qed.

Lemma snippetCreate_not_post (w : ResponseWriter) (r : Request) :
  Method r <> "POST" ->
  Main.snippetCreate w r
  = Error (SetHeader w "Allow" MethodPost) "Method Not Allowed" StatusMethodNotAllowed.
Proof.
  unfold Main.snippetCreate. intros Hm.
  by destruct (String.eqb_spec (Method r) "POST").
Qed.

(** The error reply on a fresh writer, field by field. *)
Lemma method_not_allowed_reply :
  Error (SetHeader newResponseWriter "Allow" MethodPost)
        "Method Not Allowed" StatusMethodNotAllowed
  = {| handlerHeader :=
         <["X-Content-Type-Options" := ["nosniff"]]>
           (<["Content-Type" := ["text/plain; charset=utf-8"]]>
              (delete "Content-Length" (<["Allow" := ["POST"]]> ∅)));
       wroteHeader := true;
       status := 405;
       sentHeader :=
         <["X-Content-Type-Options" := ["nosniff"]]>
           (<["Content-Type" := ["text/plain; charset=utf-8"]]>
              (delete "Content-Length" (<["Allow" := ["POST"]]> ∅)));
       body := "Method Not Allowed" ++ newline;
       calls := [CallHeaderSet "Allow" "POST";
                 CallHeaderDel "Content-Length";
                 CallHeaderSet "Content-Type" "text/plain; charset=utf-8";
                 CallHeaderSet "X-Content-Type-Options" "nosniff";
                 CallWriteHeader 405;
                 CallWrite ("Method Not Allowed" ++ newline)] |}.
Proof. reflexivity. Qed.

Lemma not_found_reply (r : Request) :
  NotFound newResponseWriter r
  = {| handlerHeader :=
         <["X-Content-Type-Options" := ["nosniff"]]>
           (<["Content-Type" := ["text/plain; charset=utf-8"]]>
              (delete "Content-Length" ∅));
       wroteHeader := true;
       status := 404;
       sentHeader :=
         <["X-Content-Type-Options" := ["nosniff"]]>
           (<["Content-Type" := ["text/plain; charset=utf-8"]]>
              (delete "Content-Length" ∅));
       body := "404 page not found" ++ newline;
       calls := [CallHeaderDel "Content-Length";
                 CallHeaderSet "Content-Type" "text/plain; charset=utf-8";
                 CallHeaderSet "X-Content-Type-Options" "nosniff";
                 CallWriteHeader 404;
                 CallWrite ("404 page not found" ++ newline)] |}.
Proof. reflexivity. Qed.

(** A first [Write] on a fresh writer: status 200, then the bytes. *)
Lemma write_fresh (data : string) :
  Write newResponseWriter data
  = {| handlerHeader := ∅; wroteHeader := true; status := 200;
       sentHeader := ∅; body := data;
       calls := [CallWriteHeader 200; CallWrite data] |}.
Proof. reflexivity. Qed.

(** Routing: a request whose path [cleanPath] leaves as it is goes to
    the handler the table gives. *)
Lemma serve_clean (r : Request) :
  cleanPath (Path (Url r)) = Path (Url r) ->
  Main.serve r
  = Some ((if String.eqb (Path (Url r)) "/snippet/view" then Main.snippetView
           else if String.eqb (Path (Url r)) "/snippet/create"
           then Main.snippetCreate
           else if HasPrefix (Path (Url r)) "/" then Main.home
           else NotFound) newResponseWriter r).
Proof.
  intros Hclean. rewrite RoutesFacts.serve_dispatch, Hclean, String.eqb_refl.
  by rewrite orb_true_r.
Qed.

Lemma serve_root (r : Request) :
  Path (Url r) = "/" -> Main.serve r = Some (Main.home newResponseWriter r).
Proof.
  intros Hp. rewrite serve_clean by (by rewrite Hp). by rewrite Hp.
Qed.

Lemma serve_view (r : Request) :
  Path (Url r) = "/snippet/view" ->
  Main.serve r = Some (Main.snippetView newResponseWriter r).
Proof.
  intros Hp. rewrite serve_clean by (by rewrite Hp). by rewrite Hp.
Qed.

Lemma serve_create (r : Request) :
  Path (Url r) = "/snippet/create" ->
  Main.serve r = Some (Main.snippetCreate newResponseWriter r).
Proof.
  intros Hp. rewrite serve_clean by (by rewrite Hp). by rewrite Hp.
Qed.

Lemma serve_subtree (r : Request) (rest : string) :
  Path (Url r) = String "/" rest ->
  cleanPath (Path (Url r)) = Path (Url r) ->
  Path (Url r) <> "/snippet/view" ->
  Path (Url r) <> "/snippet/create" ->
  Main.serve r = Some (Main.home newResponseWriter r).
Proof.
  intros Hp Hclean Hv Hc. rewrite (serve_clean _ Hclean).
  destruct (String.eqb_spec (Path (Url r)) "/snippet/view"); [done |].
  destruct (String.eqb_spec (Path (Url r)) "/snippet/create"); [done |].
  assert (HasPrefix (Path (Url r)) "/" = true) as ->; [| reflexivity].
  apply StringsFacts.HasPrefix_slash. eauto.
Qed.

(** A canonical path other than the two exact patterns goes to [home]. *)
Lemma serve_canonical (r : Request) :
  Canonical.canonicalPath (Path (Url r)) ->
  Path (Url r) <> "/snippet/view" ->
  Path (Url r) <> "/snippet/create" ->
  Main.serve r = Some (Main.home newResponseWriter r).
Proof.
  intros Hcan Hv Hc.
  destruct (CleanFacts.canonicalPath_rooted _ Hcan) as [rest Hrest].
  apply (serve_subtree r rest Hrest); [| done | done].
  by apply CleanFacts.cleanPath_canonical.
Qed.

(** Off the root the two revisions of [home] part ways. *)
Lemma home_revisions_differ_elsewhere (r : Request) :
  Path (Url r) <> "/" ->
  status (Part000.home newResponseWriter r) = 200
  /\ status (Main.home newResponseWriter r) = 404.
Proof.
  intros Hp. split; [reflexivity |].
  by rewrite (home_elsewhere _ _ Hp), not_found_reply.
Qed.

End HandlerFacts.


(** * Prefixes and trailing slashes, said on the strings themselves *)

Module PatternFacts.
Import Strings StringsFacts.

Lemma endsInSlash_spec (s : string) :
  endsInSlash s = true <-> exists p0, s = p0 ++ "/".
Proof.
  split; [| intros [p0 ->]; apply CleanFacts.endsInSlash_app_slash].
  unfold endsInSlash. induction s as [|c s IH]; [discriminate |].
  destruct s as [|d s].
  - cbn. intros ->%Ascii.eqb_eq. by exists "".
  - change (lastByte (String c (String d s))) with (lastByte (String d s)).
    intros [p0 Hp0]%IH. exists (String c p0). by rewrite CleanFacts.sapp_cons, <- Hp0.
Qed.

(** [HasPrefix s "/"] looks at the first byte only. *)
Lemma HasPrefix_slash_head (s : string) :
  HasPrefix s "/"
  = match s with
    | String c _ => Ascii.eqb c "/"%char
    | EmptyString => false
    end.
Proof.
  destruct s as [|c s]; [reflexivity |].
  unfold HasPrefix. cbn [String.length String.substring Nat.leb andb].
  rewrite substring_0_0. cbn [String.eqb]. rewrite Ascii.eqb_sym.
  by destruct (Ascii.eqb "/" c).
Qed.

End PatternFacts.

(** * The redirect reply *)

Module RedirectFacts.
Import Strings NetHttp.

(** The redirect on a fresh writer, by method. *)
Lemma redirect_fresh (r : Request) (url : string) (code : nat) :
  Redirect newResponseWriter r url code
  = if String.eqb (Method r) "GET" then
      {| handlerHeader :=
           <["Content-Type" := ["text/html; charset=utf-8"]]>
             (<["Location" := [hexEscapeNonASCII url]]> ∅);
         wroteHeader := true; status := code;
         sentHeader :=
           <["Content-Type" := ["text/html; charset=utf-8"]]>
             (<["Location" := [hexEscapeNonASCII url]]> ∅);
         body := ("<a href=" ++ quote ++ htmlEscape url ++ quote
                  ++ ">" ++ StatusText code ++ "</a>." ++ newline) ++ newline;
         calls := [CallHeaderSet "Location" (hexEscapeNonASCII url);
                   CallHeaderSet "Content-Type" "text/html; charset=utf-8";
                   CallWriteHeader code;
                   CallWrite (("<a href=" ++ quote ++ htmlEscape url ++ quote
                               ++ ">" ++ StatusText code ++ "</a>." ++ newline)
                              ++ newline)] |}
    else if String.eqb (Method r) "HEAD" then
      {| handlerHeader :=
           <["Content-Type" := ["text/html; charset=utf-8"]]>
             (<["Location" := [hexEscapeNonASCII url]]> ∅);
         wroteHeader := true; status := code;
         sentHeader :=
           <["Content-Type" := ["text/html; charset=utf-8"]]>
             (<["Location" := [hexEscapeNonASCII url]]> ∅);
         body := "";
         calls := [CallHeaderSet "Location" (hexEscapeNonASCII url);
                   CallHeaderSet "Content-Type" "text/html; charset=utf-8";
                   CallWriteHeader code] |}
    else
      {| handlerHeader := <["Location" := [hexEscapeNonASCII url]]> ∅;
         wroteHeader := true; status := code;
         sentHeader := <["Location" := [hexEscapeNonASCII url]]> ∅;
         body := "";
         calls := [CallHeaderSet "Location" (hexEscapeNonASCII url);
                   CallWriteHeader code] |}.
Proof.
  unfold Redirect. cbn [handlerHeader newResponseWriter].
  rewrite lookup_empty.
  destruct (String.eqb (Method r) "GET"); [reflexivity |].
  by destruct (String.eqb (Method r) "HEAD").
Qed.

End RedirectFacts.

(** * The earlier revision's mux *)

Module Part000Facts.
Import Strings NetHttp.

Lemma part000_table :
  Part000.mux
  = Some {| m := <["/" := {| h := Part000.home; pattern := "/" |}]> ∅;
            es := [{| h := Part000.home; pattern := "/" |}] |}.
Proof. reflexivity. Qed.

Lemma part000_shouldRedirect (path : string) :
  shouldRedirect
    {| m := <["/" := {| h := Part000.home; pattern := "/" |}]> ∅;
       es := [{| h := Part000.home; pattern := "/" |}] |} path = false.
Proof.
  unfold shouldRedirect. cbn [m].
  destruct (_ !! path); [reflexivity |].
  destruct (String.eqb_spec path "") as [-> | Hne]; [reflexivity |].
  rewrite lookup_insert, lookup_empty.
  case_decide as H3; [| reflexivity].
  destruct path as [|c [|d path]]; [done | discriminate H3 | discriminate H3].
Qed.

Lemma part000_serve_dispatch (r : Request) :
  Part000.serve r
  = Some ((if String.eqb (Method r) "CONNECT"
              || String.eqb (cleanPath (Path (Url r))) (Path (Url r))
           then if HasPrefix (Path (Url r)) "/" then Part000.home else NotFound
           else RedirectHandler
                  (URL_String {| Path := cleanPath (Path (Url r));
                                 RawQuery := RawQuery (Url r) |})
                  StatusTemporaryRedirect) newResponseWriter r).
Proof.
  unfold Part000.serve. rewrite part000_table. cbn [mbind option_bind].
  unfold ServeHTTP, Handler.
  rewrite MuxFacts.resolve_without_slash_redirect by apply part000_shouldRedirect.
  destruct (_ || _); [| reflexivity].
  unfold handler, match_. cbn [m es].
  rewrite lookup_insert, lookup_empty. case_decide as Hroot.
  - by rewrite <- Hroot.
  - cbn [matchSubtree pattern]. by destruct (HasPrefix (Path (Url r)) "/").
Qed.

End Part000Facts.

(** * The properties of the specification *)

Import Strings NetHttp MuxTable.

(** C1, as it stands, fails on the body: [http.Error] writes its message
    with [Fprintln], so the body of the 405 reply to [GET /snippet/create]
    is not the bare text "Method Not Allowed". *)
Lemma snippetCreate_error_body_not_bare :
  Path (Url (exampleRequest "GET" "/snippet/create")) = "/snippet/create"
  /\ Method (exampleRequest "GET" "/snippet/create") <> "POST"
  /\ exists w, Main.serve (exampleRequest "GET" "/snippet/create") = Some w
               /\ status w = 405
               /\ body w <> "Method Not Allowed".
Proof.
  split; [reflexivity |]. split; [discriminate |].
  eexists. split; [reflexivity |]. split; [reflexivity | discriminate].
Qed.

(** C1 (amended): for every request to /snippet/create whose method is not
    exactly the string "POST" (the comparison is on the bytes: "post" is
    not "POST"), the reply is the one of [snippetCreate]: its headers carry
    Allow: POST, its status is 405, and its body is the text
    "Method Not Allowed" followed by one line feed. *)
Theorem snippetCreate_method_not_allowed (r : Request) :
  Path (Url r) = "/snippet/create" ->
  Method r <> "POST" ->
  exists w, Main.serve r = Some w
            /\ w = Main.snippetCreate newResponseWriter r
            /\ wroteHeader w = true
            /\ status w = 405
            /\ sentHeader w !! "Allow" = Some ["POST"]
            /\ Header_Get (sentHeader w) "Allow" = "POST"
            /\ body w = "Method Not Allowed" ++ newline.
Proof.
  intros Hp Hm. eexists. split; [by apply HandlerFacts.serve_create |].
  split; [reflexivity |].
  rewrite (HandlerFacts.snippetCreate_not_post _ _ Hm).
  rewrite HandlerFacts.method_not_allowed_reply. cbn [wroteHeader status sentHeader body].
  repeat split; reflexivity.
Qed.

Lemma snippetCreate_method_not_allowed_witness :
  Path (Url (exampleRequest "post" "/snippet/create")) = "/snippet/create"
  /\ Method (exampleRequest "post" "/snippet/create") <> "POST"
  /\ exists w, Main.serve (exampleRequest "post" "/snippet/create") = Some w
               /\ w = Main.snippetCreate newResponseWriter
                        (exampleRequest "post" "/snippet/create")
               /\ wroteHeader w = true
               /\ status w = 405
               /\ sentHeader w !! "Allow" = Some ["POST"]
               /\ Header_Get (sentHeader w) "Allow" = "POST"
               /\ body w = "Method Not Allowed" ++ newline.
Proof.
  split; [reflexivity |]. split; [discriminate |].
  apply (snippetCreate_method_not_allowed (exampleRequest "post" "/snippet/create"));
    [reflexivity | discriminate].
Defined.

(** C2, as it stands, fails where the mux cleans the path first: for
    [GET snippet] no pattern is the path or a prefix of it, yet the result
    is not "not found" but a redirect to /snippet; for [GET //] the
    subtree pattern "/" is a prefix, yet the result is not its handler
    but a redirect to "/". *)
Lemma routes_dispatch_redirects_first :
  exists mux : ServeMux HandlerFunc,
    Main.mux = Some mux
    /\ (forall e, registered mux e ->
                  pattern e <> "snippet"
                  /\ ~ exists rest, "snippet" = pattern e ++ rest)
    /\ resolve mux (exampleRequest "GET" "snippet")
       = Redirected {| Path := "/snippet"; RawQuery := "" |}
    /\ registered mux {| h := Main.home; pattern := "/" |}
    /\ "//" = "/" ++ "/"
    /\ resolve mux (exampleRequest "GET" "//")
       = Redirected {| Path := "/"; RawQuery := "" |}.
Proof.
  unfold Main.mux. rewrite RoutesFacts.routes_table. eexists.
  split; [reflexivity |]. split.
  { intros e He.
    apply (RoutesFacts.routes_registered _ _ _ _ _ (RoutesFacts.routes_table _ _ _))
      in He as [-> | [-> | ->]];
      (split; [discriminate | intros [rest Hrest]; discriminate Hrest]). }
  repeat split; reflexivity.
Qed.

(** C2 (amended): on the table [main] registers ("/" as a subtree,
    "/snippet/view" and "/snippet/create" as exact patterns), for every
    request the mux does not redirect, that is a request whose path is in
    canonical form or a CONNECT request: (a) an entry registered under
    exactly the path is the one resolved; (b) with no such entry, the
    entry resolved is a subtree pattern that is a prefix of the path and
    is at least as long as any other such pattern; (c) a path no pattern
    matches resolves to nothing (not found), which with "/" registered
    only a path that does not start with a slash does; path by path, the
    result is the entry of /snippet/view, of /snippet/create, of "/", or
    nothing.  Any other request is resolved to a redirect to the cleaned
    path, which is canonical, with the query kept.  The statement holds
    for handlers of any type [T]: resolving looks at patterns only and
    cannot call what it returns. *)
Theorem routes_dispatch (T : Type) (hHome hView hCreate : T) :
  exists mux : ServeMux T,
    Main.routes hHome hView hCreate = Some mux
    /\ (forall e, registered mux e <->
                  e = {| h := hHome; pattern := "/" |}
                  \/ e = {| h := hView; pattern := "/snippet/view" |}
                  \/ e = {| h := hCreate; pattern := "/snippet/create" |})
    /\ (forall r : Request,
          Method r = "CONNECT" \/ Canonical.canonicalPath (Path (Url r)) ->
          (forall e,
             registered mux e -> pattern e = Path (Url r) ->
             resolve mux r = Matched e)
          /\ (forall e,
                (forall e', registered mux e' -> pattern e' <> Path (Url r)) ->
                registered mux e ->
                (exists p0, pattern e = p0 ++ "/") ->
                (exists rest, Path (Url r) = pattern e ++ rest) ->
                exists e',
                  resolve mux r = Matched e'
                  /\ registered mux e'
                  /\ (exists p0, pattern e' = p0 ++ "/")
                  /\ (exists rest, Path (Url r) = pattern e' ++ rest)
                  /\ String.length (pattern e) <= String.length (pattern e'))
          /\ ((forall e,
                 registered mux e ->
                 pattern e <> Path (Url r)
                 /\ ~ ((exists p0, pattern e = p0 ++ "/")
                       /\ exists rest, Path (Url r) = pattern e ++ rest)) ->
              resolve mux r = Unmatched)
          /\ resolve mux r
             = if String.eqb (Path (Url r)) "/snippet/view"
               then Matched {| h := hView; pattern := "/snippet/view" |}
               else if String.eqb (Path (Url r)) "/snippet/create"
               then Matched {| h := hCreate; pattern := "/snippet/create" |}
               else match Path (Url r) with
                    | String c _ =>
                        if Ascii.eqb c "/"%char
                        then Matched {| h := hHome; pattern := "/" |}
                        else Unmatched
                    | EmptyString => Unmatched
                    end)
    /\ (forall r : Request,
          Method r <> "CONNECT" ->
          ~ Canonical.canonicalPath (Path (Url r)) ->
          resolve mux r
          = Redirected {| Path := cleanPath (Path (Url r));
                          RawQuery := RawQuery (Url r) |}
          /\ Canonical.canonicalPath (cleanPath (Path (Url r)))).
Proof.
  destruct (Main.routes hHome hView hCreate) as [mux|] eqn:Hr;
    [| by rewrite RoutesFacts.routes_table in Hr].
  pose proof (RoutesFacts.routes_wf _ _ _ _ Hr) as Hwf.
  assert (Hno : forall p, shouldRedirect mux p = false)
    by (intros p; by apply (RoutesFacts.routes_shouldRedirect hHome hView hCreate)).
  exists mux. split; [reflexivity |].
  split; [intros e; by apply RoutesFacts.routes_registered |].
  split.
  - intros r Hserved.
    assert (Hres : resolve mux r = handler mux (Path (Url r))).
    { rewrite (MuxFacts.resolve_without_slash_redirect _ _ Hno).
      destruct Hserved as [-> | Hcan]; [reflexivity |].
      rewrite (CleanFacts.cleanPath_canonical _ Hcan), String.eqb_refl.
      by rewrite orb_true_r. }
    rewrite Hres. unfold handler. split; [| split; [| split]].
    + intros e Hreg Hpat. unfold registered in Hreg. rewrite Hpat in Hreg.
      by rewrite (MuxFacts.match_exact _ _ _ Hreg).
    + intros e Hnone Hreg Hslash Hpre.
      assert (Hmiss : m mux !! Path (Url r) = None).
      { destruct (m mux !! Path (Url r)) as [e0|] eqn:Hex; [exfalso | reflexivity].
        pose proof (wf_key _ Hwf _ _ Hex) as Hpat.
        apply (Hnone e0); [| exact Hpat]. unfold registered. by rewrite Hpat. }
      assert (Hsub : subtreeMatch e (Path (Url r))).
      { split; [by apply PatternFacts.endsInSlash_spec
               | by apply StringsFacts.HasPrefix_spec]. }
      destruct (MuxFacts.match_longest_subtree _ _ _ Hwf Hmiss Hreg Hsub)
        as (e' & Hm & Hreg' & [Hslash' Hpre'] & Hlen).
      exists e'. rewrite Hm. split; [reflexivity |]. split; [exact Hreg' |].
      split; [by apply PatternFacts.endsInSlash_spec |].
      split; [by apply StringsFacts.HasPrefix_spec | exact Hlen].
    + intros Hnone. rewrite (MuxFacts.match_not_found _ _ Hwf); [reflexivity |].
      intros e Hreg. destruct (Hnone e Hreg) as [Hne Hns].
      split; [exact Hne |]. intros [Hslash Hpre]. apply Hns.
      split; [by apply PatternFacts.endsInSlash_spec
             | by apply StringsFacts.HasPrefix_spec].
    + rewrite (RoutesFacts.routes_match _ _ _ _ _ Hr).
      rewrite PatternFacts.HasPrefix_slash_head.
      destruct (Path (Url r) =? "/snippet/view"); [reflexivity |].
      destruct (Path (Url r) =? "/snippet/create"); [reflexivity |].
      destruct (Path (Url r)) as [|c rest]; [reflexivity |].
      by destruct (Ascii.eqb c "/").
  - intros r Hm Hcan. split; [| apply CleanFacts.cleanPath_is_canonical].
    rewrite (MuxFacts.resolve_without_slash_redirect _ _ Hno).
    apply String.eqb_neq in Hm. rewrite Hm. cbn [orb].
    destruct (String.eqb_spec (cleanPath (Path (Url r))) (Path (Url r)))
      as [Hfix | _]; [| reflexivity].
    by apply CleanFacts.cleanPath_fixed_iff in Hfix.
Qed.




(** C4: for every request whose path is exactly "/", the home handler
    answers with status 200 and body "Hello, World!". *)
Theorem home_hello (r : Request) :
  Path (Url r) = "/" ->
  exists w, Main.serve r = Some w
            /\ w = Main.home newResponseWriter r
            /\ wroteHeader w = true
            /\ status w = 200
            /\ body w = "Hello, World!".
Proof.
  intros Hp. eexists. split; [by apply HandlerFacts.serve_root |].
  split; [reflexivity |].
  rewrite (HandlerFacts.home_root _ _ Hp), HandlerFacts.write_fresh.
  repeat split; reflexivity.
Qed.

Lemma home_hello_witness :
  Path (Url (exampleRequest "GET" "/")) = "/"
  /\ exists w, Main.serve (exampleRequest "GET" "/") = Some w
               /\ w = Main.home newResponseWriter (exampleRequest "GET" "/")
               /\ wroteHeader w = true
               /\ status w = 200
               /\ body w = "Hello, World!".
Proof.
  split; [reflexivity |].
  apply (home_hello (exampleRequest "GET" "/")). reflexivity.
Defined.

(** C5: for every request to /snippet/create whose method is "POST", the
    snippetCreate handler answers with status 200 and body
    "Create a new snippet...". *)
Theorem snippetCreate_post_ok (r : Request) :
  Path (Url r) = "/snippet/create" ->
  Method r = "POST" ->
  exists w, Main.serve r = Some w
            /\ w = Main.snippetCreate newResponseWriter r
            /\ wroteHeader w = true
            /\ status w = 200
            /\ body w = "Create a new snippet...".
Proof.
  intros Hp Hm. eexists. split; [by apply HandlerFacts.serve_create |].
  split; [reflexivity |].
  rewrite (HandlerFacts.snippetCreate_post _ _ Hm), HandlerFacts.write_fresh.
  repeat split; reflexivity.
Qed.

Lemma snippetCreate_post_ok_witness :
  Path (Url (exampleRequest "POST" "/snippet/create")) = "/snippet/create"
  /\ Method (exampleRequest "POST" "/snippet/create") = "POST"
  /\ exists w, Main.serve (exampleRequest "POST" "/snippet/create") = Some w
               /\ w = Main.snippetCreate newResponseWriter
                        (exampleRequest "POST" "/snippet/create")
               /\ wroteHeader w = true
               /\ status w = 200
               /\ body w = "Create a new snippet...".
Proof.
  split; [reflexivity |]. split; [reflexivity |].
  apply (snippetCreate_post_ok (exampleRequest "POST" "/snippet/create"));
    reflexivity.
Defined.

(** C6: for every request to /snippet/view, whatever its method, the
    snippetView handler answers with status 200 and body
    "Display a snippet...". *)
Theorem snippetView_ok (r : Request) :
  Path (Url r) = "/snippet/view" ->
  exists w, Main.serve r = Some w
            /\ w = Main.snippetView newResponseWriter r
            /\ wroteHeader w = true
            /\ status w = 200
            /\ body w = "Display a snippet...".
Proof.
  intros Hp. eexists. split; [by apply HandlerFacts.serve_view |].
  repeat split; reflexivity.
Qed.

Lemma snippetView_ok_witness :
  Path (Url (exampleRequest "DELETE" "/snippet/view")) = "/snippet/view"
  /\ exists w, Main.serve (exampleRequest "DELETE" "/snippet/view") = Some w
               /\ w = Main.snippetView newResponseWriter
                        (exampleRequest "DELETE" "/snippet/view")
               /\ wroteHeader w = true
               /\ status w = 200
               /\ body w = "Display a snippet...".
Proof.
  split; [reflexivity |].
  apply (snippetView_ok (exampleRequest "DELETE" "/snippet/view")). reflexivity.
Defined.

(** C7: for every request to /snippet/create whose method is not "POST",
    the handler stops after [http.Error]: the reply is exactly what
    [http.Error] leaves, the calls on the writer are the header changes,
    then one status line (405), then the one write of the error text; the
    status line went out once, before the body; there is no write of
    "Create a new snippet...". *)
Theorem snippetCreate_error_is_final (r : Request) :
  Path (Url r) = "/snippet/create" ->
  Method r <> "POST" ->
  exists w, Main.serve r = Some w
            /\ w = Error (SetHeader newResponseWriter "Allow" MethodPost)
                         "Method Not Allowed" StatusMethodNotAllowed
            /\ calls w
               = [CallHeaderSet "Allow" "POST";
                  CallHeaderDel "Content-Length";
                  CallHeaderSet "Content-Type" "text/plain; charset=utf-8";
                  CallHeaderSet "X-Content-Type-Options" "nosniff";
                  CallWriteHeader 405;
                  CallWrite ("Method Not Allowed" ++ newline)]
            /\ headerOnceThenBody (calls w)
            /\ length (List.filter isWriteHeader (calls w)) = 1
            /\ length (List.filter isWrite (calls w)) = 1
            /\ (forall data, CallWrite data ∈ calls w ->
                             data <> "Create a new snippet...")
            /\ status w = 405
            /\ body w = "Method Not Allowed" ++ newline.
Proof.
  intros Hp Hm. eexists. split; [by apply HandlerFacts.serve_create |].
  rewrite (HandlerFacts.snippetCreate_not_post _ _ Hm).
  split; [reflexivity |].
  rewrite HandlerFacts.method_not_allowed_reply. cbn [calls status body].
  split; [reflexivity |]. split.
  { exists [CallHeaderSet "Allow" "POST";
            CallHeaderDel "Content-Length";
            CallHeaderSet "Content-Type" "text/plain; charset=utf-8";
            CallHeaderSet "X-Content-Type-Options" "nosniff"],
           405, [CallWrite ("Method Not Allowed" ++ newline)].
    split; [reflexivity |]. split; repeat constructor. }
  split; [reflexivity |]. split; [reflexivity |]. split; [| done].
  intros data Hin.
  repeat (apply elem_of_cons in Hin as [Heq | Hin]; [try discriminate Heq |]).
  - injection Heq as ->. discriminate.
  - by apply elem_of_nil in Hin.
Qed.

Lemma snippetCreate_error_is_final_witness :
  Path (Url (exampleRequest "PUT" "/snippet/create")) = "/snippet/create"
  /\ Method (exampleRequest "PUT" "/snippet/create") <> "POST"
  /\ exists w, Main.serve (exampleRequest "PUT" "/snippet/create") = Some w
            /\ w = Error (SetHeader newResponseWriter "Allow" MethodPost)
                         "Method Not Allowed" StatusMethodNotAllowed
            /\ calls w
               = [CallHeaderSet "Allow" "POST";
                  CallHeaderDel "Content-Length";
                  CallHeaderSet "Content-Type" "text/plain; charset=utf-8";
                  CallHeaderSet "X-Content-Type-Options" "nosniff";
                  CallWriteHeader 405;
                  CallWrite ("Method Not Allowed" ++ newline)]
            /\ headerOnceThenBody (calls w)
            /\ length (List.filter isWriteHeader (calls w)) = 1
            /\ length (List.filter isWrite (calls w)) = 1
            /\ (forall data, CallWrite data ∈ calls w ->
                             data <> "Create a new snippet...")
            /\ status w = 405
            /\ body w = "Method Not Allowed" ++ newline.
Proof.
  split; [reflexivity |]. split; [discriminate |].
  apply (snippetCreate_error_is_final (exampleRequest "PUT" "/snippet/create"));
    [reflexivity | discriminate].
Defined.



(** C9: each handler's reply depends on the request through its method and
    path only: on the same writer, two requests that agree on method and
    path get the same reply from [home], from [snippetView] and from
    [snippetCreate], whatever their hosts, queries, headers and bodies. *)
Theorem handlers_read_method_and_path_only (w : ResponseWriter) (r1 r2 : Request) :
  Method r1 = Method r2 ->
  Path (Url r1) = Path (Url r2) ->
  Main.home w r1 = Main.home w r2
  /\ Main.snippetView w r1 = Main.snippetView w r2
  /\ Main.snippetCreate w r1 = Main.snippetCreate w r2.
Proof.
  intros Hm Hp. split; [| split].
  - unfold Main.home, NotFound. by rewrite Hp.
  - reflexivity.
  - unfold Main.snippetCreate. by rewrite Hm.
Qed.

Lemma handlers_read_method_and_path_only_witness :
  Method (exampleRequest "GET" "/snippet/create")
  = Method (otherClientRequest "GET" "/snippet/create")
  /\ Path (Url (exampleRequest "GET" "/snippet/create"))
     = Path (Url (otherClientRequest "GET" "/snippet/create"))
  /\ exampleRequest "GET" "/snippet/create"
     <> otherClientRequest "GET" "/snippet/create"
  /\ (Main.home newResponseWriter (exampleRequest "GET" "/snippet/create")
      = Main.home newResponseWriter (otherClientRequest "GET" "/snippet/create")
      /\ Main.snippetView newResponseWriter (exampleRequest "GET" "/snippet/create")
         = Main.snippetView newResponseWriter (otherClientRequest "GET" "/snippet/create")
      /\ Main.snippetCreate newResponseWriter (exampleRequest "GET" "/snippet/create")
         = Main.snippetCreate newResponseWriter (otherClientRequest "GET" "/snippet/create")).
Proof.
  split; [reflexivity |]. split; [reflexivity |]. split; [discriminate |].
  apply (handlers_read_method_and_path_only newResponseWriter
           (exampleRequest "GET" "/snippet/create")
           (otherClientRequest "GET" "/snippet/create")); reflexivity.
Defined.

(** C10, as it stands, fails: on [GET /snippet] the earlier [home] answers
    200 "Hello, World!" where the [home] of [main.go] answers 404. *)
Lemma home_revisions_differ :
  status (Part000.home newResponseWriter (exampleRequest "GET" "/snippet")) = 200
  /\ status (Main.home newResponseWriter (exampleRequest "GET" "/snippet")) = 404
  /\ body (Part000.home newResponseWriter (exampleRequest "GET" "/snippet"))
     = "Hello, World!"
  /\ body (Main.home newResponseWriter (exampleRequest "GET" "/snippet"))
     = "404 page not found" ++ newline
  /\ ~ (status (Part000.home newResponseWriter (exampleRequest "GET" "/snippet"))
        = status (Main.home newResponseWriter (exampleRequest "GET" "/snippet"))
        /\ body (Part000.home newResponseWriter (exampleRequest "GET" "/snippet"))
           = body (Main.home newResponseWriter (exampleRequest "GET" "/snippet"))).
Proof.
  repeat (split; [reflexivity |]). intros [Hst _]. discriminate Hst.
Qed.

(** C10 (amended): for every request whose path is exactly "/", the [home]
    of the earlier revision and the [home] of [main.go] give the same
    reply on the same writer, so the same status and body; and the two
    servers answer alike. *)
Theorem home_revisions_agree_on_root (w : ResponseWriter) (r : Request) :
  Path (Url r) = "/" ->
  Part000.home w r = Main.home w r
  /\ status (Part000.home w r) = status (Main.home w r)
  /\ body (Part000.home w r) = body (Main.home w r)
  /\ Part000.serve r = Main.serve r.
Proof.
  intros Hp.
  assert (Heq : forall w', Part000.home w' r = Main.home w' r).
  { intros w'. by rewrite (HandlerFacts.home_root _ _ Hp). }
  split; [apply Heq |]. rewrite Heq. split; [reflexivity |]. split; [reflexivity |].
  rewrite (HandlerFacts.serve_root _ Hp), <- Heq.
  rewrite Part000Facts.part000_serve_dispatch, Hp.
  change (cleanPath "/" =? "/") with true. by rewrite orb_true_r.
Qed.

Lemma home_revisions_agree_on_root_witness :
  Path (Url (exampleRequest "GET" "/")) = "/"
  /\ Part000.home newResponseWriter (exampleRequest "GET" "/")
     = Main.home newResponseWriter (exampleRequest "GET" "/")
  /\ status (Part000.home newResponseWriter (exampleRequest "GET" "/"))
     = status (Main.home newResponseWriter (exampleRequest "GET" "/"))
  /\ body (Part000.home newResponseWriter (exampleRequest "GET" "/"))
     = body (Main.home newResponseWriter (exampleRequest "GET" "/"))
  /\ Part000.serve (exampleRequest "GET" "/") = Main.serve (exampleRequest "GET" "/").
Proof.
  split; [reflexivity |].
  apply (home_revisions_agree_on_root newResponseWriter (exampleRequest "GET" "/")).
  reflexivity.
Defined.

(** * The mux of [main] as a whole *)

Module ServerFacts.
Import Strings NetHttp Canonical.

Lemma canonical_one (x : string) :
  isElement x = true -> canonicalPath ("/" ++ x).
Proof.
  intros Hx. right. exists [x]. split; [done |].
  split; [by repeat constructor |]. left. cbn [joinRooted].
  by rewrite CleanFacts.sapp_nil_r.
Qed.

(** The six replies of the mux, and when each is given. *)
Lemma serve_cases (r : Request) :
  (Path (Url r) = "/"
   /\ Main.serve r = Some (Write newResponseWriter "Hello, World!"))
  \/ (Path (Url r) = "/snippet/view"
      /\ Main.serve r = Some (Write newResponseWriter "Display a snippet..."))
  \/ (Path (Url r) = "/snippet/create" /\ Method r = "POST"
      /\ Main.serve r = Some (Write newResponseWriter "Create a new snippet..."))
  \/ (Path (Url r) = "/snippet/create" /\ Method r <> "POST"
      /\ Main.serve r
         = Some (Error (SetHeader newResponseWriter "Allow" MethodPost)
                       "Method Not Allowed" StatusMethodNotAllowed))
  \/ ((Method r = "CONNECT" \/ canonicalPath (Path (Url r)))
      /\ Path (Url r) <> "/" /\ Path (Url r) <> "/snippet/view"
      /\ Path (Url r) <> "/snippet/create"
      /\ Main.serve r = Some (NotFound newResponseWriter r))
  \/ (Method r <> "CONNECT" /\ ~ canonicalPath (Path (Url r))
      /\ Path (Url r) <> "/" /\ Path (Url r) <> "/snippet/view"
      /\ Path (Url r) <> "/snippet/create"
      /\ Main.serve r
         = Some (Redirect newResponseWriter r
                   (URL_String {| Path := cleanPath (Path (Url r));
                                  RawQuery := RawQuery (Url r) |})
                   StatusTemporaryRedirect)).
Proof.
  destruct (String.eqb_spec (Path (Url r)) "/") as [Hroot | Hroot].
  { left. split; [done |].
    by rewrite (HandlerFacts.serve_root _ Hroot), (HandlerFacts.home_root _ _ Hroot). }
  destruct (String.eqb_spec (Path (Url r)) "/snippet/view") as [Hv | Hv].
  { right; left. split; [done |]. by rewrite (HandlerFacts.serve_view _ Hv). }
  destruct (String.eqb_spec (Path (Url r)) "/snippet/create") as [Hc | Hc].
  { destruct (String.eqb_spec (Method r) "POST") as [Hm | Hm].
    - right; right; left. split; [done |]. split; [done |].
      by rewrite (HandlerFacts.serve_create _ Hc), (HandlerFacts.snippetCreate_post _ _ Hm).
    - right; right; right; left. split; [done |]. split; [done |].
      by rewrite (HandlerFacts.serve_create _ Hc),
                 (HandlerFacts.snippetCreate_not_post _ _ Hm). }
  right; right; right; right.
  assert (Hserved : String.eqb (Method r) "CONNECT"
                    || String.eqb (cleanPath (Path (Url r))) (Path (Url r)) = true
                    -> Main.serve r = Some (NotFound newResponseWriter r)).
  { intros Hcond. rewrite RoutesFacts.serve_dispatch, Hcond.
    destruct (String.eqb_spec (Path (Url r)) "/snippet/view"); [done |].
    destruct (String.eqb_spec (Path (Url r)) "/snippet/create"); [done |].
    destruct (HasPrefix (Path (Url r)) "/"); [| reflexivity].
    by rewrite (HandlerFacts.home_elsewhere _ _ Hroot). }
  destruct (String.eqb_spec (Method r) "CONNECT") as [Hm | Hm].
  { left. split; [by left |]. repeat (split; [done |]).
    by apply Hserved. }
  destruct (String.eqb_spec (cleanPath (Path (Url r))) (Path (Url r))) as [Hfix | Hfix].
  { left. split; [right; by apply CleanFacts.cleanPath_fixed_iff |].
    repeat (split; [done |]).
    by apply Hserved. }
  right. split; [done |].
  split; [by rewrite <- CleanFacts.cleanPath_fixed_iff |].
  repeat (split; [done |]).
  rewrite RoutesFacts.serve_dispatch.
  apply String.eqb_neq in Hm, Hfix. by rewrite Hm, Hfix.
Qed.

(** What every redirect reply on a fresh writer has, whatever the method
    and the target. *)
Lemma redirect_reply (r : Request) (url : string) :
  wroteHeader (Redirect newResponseWriter r url StatusTemporaryRedirect) = true
  /\ status (Redirect newResponseWriter r url StatusTemporaryRedirect) = 307
  /\ sentHeader (Redirect newResponseWriter r url StatusTemporaryRedirect) !! "Allow"
     = None
  /\ sentHeader (Redirect newResponseWriter r url StatusTemporaryRedirect) !! "Location"
     = Some [hexEscapeNonASCII url]
  /\ (body (Redirect newResponseWriter r url StatusTemporaryRedirect) = ""
      \/ exists t, body (Redirect newResponseWriter r url StatusTemporaryRedirect)
                   = String "<" t).
Proof.
  rewrite RedirectFacts.redirect_fresh.
  destruct (String.eqb (Method r) "GET"); [| destruct (String.eqb (Method r) "HEAD")];
    cbn [wroteHeader status sentHeader body];
    (split; [reflexivity |]); (split; [reflexivity |]); (split; [reflexivity |]);
    (split; [reflexivity |]); [right; by eexists | by left | by left].
Qed.

End ServerFacts.

(** ** Statuses of the mux of [main], decided by path and method *)



(** X2: the status is 405 exactly for /snippet/create with a method other
    than "POST". *)
Theorem serve_405_iff (r : Request) :
  exists w, Main.serve r = Some w
            /\ (status w = 405 <->
                Path (Url r) = "/snippet/create" /\ Method r <> "POST").
Proof.
  destruct (ServerFacts.serve_cases r)
    as [[Hp ->] | [[Hp ->] | [(Hp & Hm & ->) | [(Hp & Hm & ->)
        | [(Hsv & H1 & H2 & H3 & ->) | (Hm & Hnc & H1 & H2 & H3 & ->)]]]]];
    eexists; (split; [reflexivity |]);
    rewrite ?HandlerFacts.write_fresh, ?HandlerFacts.method_not_allowed_reply,
            ?HandlerFacts.not_found_reply;
    try (destruct (ServerFacts.redirect_reply r
                     (URL_String {| Path := cleanPath (Path (Url r));
                                    RawQuery := RawQuery (Url r) |}))
           as (Hrw & Hrs & Hra & Hrl & Hrb));
    cbn [status]; rewrite ?Hrs; (split; [intros Hst | intros [Hc Hn]]);
    try discriminate Hst; try done; try congruence.
Qed.

(** X3: for a request whose path is not [*] (the request the server
    does not leave to the handlers as they are), the status is 200 exactly
    for "/", for /snippet/view, and for /snippet/create with method
    "POST". *)
Theorem serve_200_iff (r : Request) :
  Path (Url r) <> "*" ->
  exists w, Main.serve r = Some w
            /\ (status w = 200 <->
                Path (Url r) = "/"
                \/ Path (Url r) = "/snippet/view"
                \/ (Path (Url r) = "/snippet/create" /\ Method r = "POST")).
Proof.
  intros _.
  destruct (ServerFacts.serve_cases r)
    as [[Hp ->] | [[Hp ->] | [(Hp & Hm & ->) | [(Hp & Hm & ->)
        | [(Hsv & H1 & H2 & H3 & ->) | (Hm & Hnc & H1 & H2 & H3 & ->)]]]]];
    eexists; (split; [reflexivity |]);
    rewrite ?HandlerFacts.write_fresh, ?HandlerFacts.method_not_allowed_reply,
            ?HandlerFacts.not_found_reply;
    try (destruct (ServerFacts.redirect_reply r
                     (URL_String {| Path := cleanPath (Path (Url r));
                                    RawQuery := RawQuery (Url r) |}))
           as (Hrw & Hrs & Hra & Hrl & Hrb));
    cbn [status]; rewrite ?Hrs;
    (split; [intros Hst | intros [Hc | [Hc | [Hc Hn]]]]);
    try discriminate Hst; try done; try congruence; auto.
Qed.

Lemma serve_200_iff_witness :
  Path (Url (exampleRequest "POST" "/snippet/create")) <> "*"
  /\ exists w, Main.serve (exampleRequest "POST" "/snippet/create") = Some w
       /\ (status w = 200 <->
           Path (Url (exampleRequest "POST" "/snippet/create")) = "/"
           \/ Path (Url (exampleRequest "POST" "/snippet/create")) = "/snippet/view"
           \/ (Path (Url (exampleRequest "POST" "/snippet/create")) = "/snippet/create"
               /\ Method (exampleRequest "POST" "/snippet/create") = "POST")).
Proof.
  split; [discriminate |].
  apply (serve_200_iff (exampleRequest "POST" "/snippet/create")). discriminate.
Defined.

(** X4: for a request other than CONNECT, the status is 404 exactly when
    the path is in canonical form and is none of "/", /snippet/view and
    /snippet/create. *)
Theorem serve_404_iff (r : Request) :
  Method r <> "CONNECT" ->
  exists w, Main.serve r = Some w
            /\ (status w = 404 <->
                Canonical.canonicalPath (Path (Url r))
                /\ Path (Url r) <> "/"
                /\ Path (Url r) <> "/snippet/view"
                /\ Path (Url r) <> "/snippet/create").
Proof.
  intros Hnc0.
  destruct (ServerFacts.serve_cases r)
    as [[Hp ->] | [[Hp ->] | [(Hp & Hm & ->) | [(Hp & Hm & ->)
        | [(Hsv & H1 & H2 & H3 & ->) | (Hm & Hnc & H1 & H2 & H3 & ->)]]]]];
    eexists; (split; [reflexivity |]);
    rewrite ?HandlerFacts.write_fresh, ?HandlerFacts.method_not_allowed_reply,
            ?HandlerFacts.not_found_reply;
    try (destruct (ServerFacts.redirect_reply r
                     (URL_String {| Path := cleanPath (Path (Url r));
                                    RawQuery := RawQuery (Url r) |}))
           as (Hrw & Hrs & Hra & Hrl & Hrb));
    cbn [status]; rewrite ?Hrs;
    (split; [intros Hst | intros (Hcan & Ha & Hb & Hc)]);
    try discriminate Hst; try done; try congruence.
  destruct Hsv as [Hsv | Hsv]; [done |]. done.
Qed.

Lemma serve_404_iff_witness :
  Method (exampleRequest "GET" "/snippet") <> "CONNECT"
  /\ exists w, Main.serve (exampleRequest "GET" "/snippet") = Some w
               /\ (status w = 404 <->
                   Canonical.canonicalPath (Path (Url (exampleRequest "GET" "/snippet")))
                   /\ Path (Url (exampleRequest "GET" "/snippet")) <> "/"
                   /\ Path (Url (exampleRequest "GET" "/snippet")) <> "/snippet/view"
                   /\ Path (Url (exampleRequest "GET" "/snippet")) <> "/snippet/create").
Proof.
  split; [discriminate |].
  apply (serve_404_iff (exampleRequest "GET" "/snippet")). discriminate.
Defined.

(** ** What the replies carry *)

(** X5: the reply carries an Allow header exactly when its status is 405,
    and then the header is Allow: POST. *)
Theorem serve_allow_iff_405 (r : Request) :
  exists w, Main.serve r = Some w
            /\ (is_Some (sentHeader w !! "Allow") <-> status w = 405)
            /\ (status w = 405 -> sentHeader w !! "Allow" = Some ["POST"]).
Proof.
  destruct (ServerFacts.serve_cases r)
    as [[Hp ->] | [[Hp ->] | [(Hp & Hm & ->) | [(Hp & Hm & ->)
        | [(Hsv & H1 & H2 & H3 & ->) | (Hm & Hnc & H1 & H2 & H3 & ->)]]]]];
    eexists; (split; [reflexivity |]);
    rewrite ?HandlerFacts.write_fresh, ?HandlerFacts.method_not_allowed_reply,
            ?HandlerFacts.not_found_reply;
    try (destruct (ServerFacts.redirect_reply r
                     (URL_String {| Path := cleanPath (Path (Url r));
                                    RawQuery := RawQuery (Url r) |}))
           as (Hrw & Hrs & Hra & Hrl & Hrb));
    cbn [status sentHeader]; rewrite ?Hrs, ?Hra;
    (split; [split; [intros [v Hv] | intros Hst] | intros Hst]);
    try discriminate Hst; try discriminate Hv; try done.
Qed.

(** X6: for a request whose path is not [*], a 200 reply goes out with no
    header set by the handler; a 404 or 405 reply goes out as plain text,
    marked nosniff, and without a Content-Length of the handler's. *)
Theorem serve_headers (r : Request) :
  Path (Url r) <> "*" ->
  exists w, Main.serve r = Some w
            /\ (status w = 200 -> sentHeader w = ∅)
            /\ (status w = 404 \/ status w = 405 ->
                sentHeader w !! "Content-Type" = Some ["text/plain; charset=utf-8"]
                /\ sentHeader w !! "X-Content-Type-Options" = Some ["nosniff"]
                /\ sentHeader w !! "Content-Length" = None).
Proof.
  intros _.
  destruct (ServerFacts.serve_cases r)
    as [[Hp ->] | [[Hp ->] | [(Hp & Hm & ->) | [(Hp & Hm & ->)
        | [(Hsv & H1 & H2 & H3 & ->) | (Hm & Hnc & H1 & H2 & H3 & ->)]]]]];
    eexists; (split; [reflexivity |]);
    rewrite ?HandlerFacts.write_fresh, ?HandlerFacts.method_not_allowed_reply,
            ?HandlerFacts.not_found_reply;
    try (destruct (ServerFacts.redirect_reply r
                     (URL_String {| Path := cleanPath (Path (Url r));
                                    RawQuery := RawQuery (Url r) |}))
           as (Hrw & Hrs & Hra & Hrl & Hrb));
    cbn [status sentHeader]; rewrite ?Hrs;
    (split; [intros Hst | intros [Hst | Hst]]);
    try discriminate Hst; try done.
Qed.

Lemma serve_headers_witness :
  Path (Url (exampleRequest "GET" "/snippet/create")) <> "*"
  /\ exists w, Main.serve (exampleRequest "GET" "/snippet/create") = Some w
       /\ (status w = 200 -> sentHeader w = ∅)
       /\ (status w = 404 \/ status w = 405 ->
           sentHeader w !! "Content-Type" = Some ["text/plain; charset=utf-8"]
           /\ sentHeader w !! "X-Content-Type-Options" = Some ["nosniff"]
           /\ sentHeader w !! "Content-Length" = None).
Proof.
  split; [discriminate |].
  apply (serve_headers (exampleRequest "GET" "/snippet/create")). discriminate.
Defined.

(** X7: the reply to a request whose path is in canonical form follows
    the writer's protocol: header changes first, then the status line,
    sent once, then one write, whose bytes are the whole body. *)
Theorem serve_protocol (r : Request) :
  Canonical.canonicalPath (Path (Url r)) ->
  exists w, Main.serve r = Some w
            /\ headerOnceThenBody (calls w)
            /\ length (List.filter isWriteHeader (calls w)) = 1
            /\ List.filter isWrite (calls w) = [CallWrite (body w)].
Proof.
  intros Hcan.
  destruct (ServerFacts.serve_cases r)
    as [[Hp ->] | [[Hp ->] | [(Hp & Hm & ->) | [(Hp & Hm & ->)
        | [(Hsv & H1 & H2 & H3 & ->) | (Hm & Hnc & _)]]]]]; [| | | | | done];
    eexists; (split; [reflexivity |]);
    rewrite ?HandlerFacts.write_fresh, ?HandlerFacts.method_not_allowed_reply,
            ?HandlerFacts.not_found_reply;
    cbn [calls body]; (split; [| split; reflexivity]).
  - exists [], 200, [CallWrite "Hello, World!"]. repeat constructor.
  - exists [], 200, [CallWrite "Display a snippet..."]. repeat constructor.
  - exists [], 200, [CallWrite "Create a new snippet..."]. repeat constructor.
  - exists [CallHeaderSet "Allow" "POST";
            CallHeaderDel "Content-Length";
            CallHeaderSet "Content-Type" "text/plain; charset=utf-8";
            CallHeaderSet "X-Content-Type-Options" "nosniff"],
           405, [CallWrite ("Method Not Allowed" ++ newline)].
    repeat constructor.
  - exists [CallHeaderDel "Content-Length";
            CallHeaderSet "Content-Type" "text/plain; charset=utf-8";
            CallHeaderSet "X-Content-Type-Options" "nosniff"],
           404, [CallWrite ("404 page not found" ++ newline)].
    repeat constructor.
Qed.

Lemma serve_protocol_witness :
  Canonical.canonicalPath (Path (Url (exampleRequest "PUT" "/snippet/create")))
  /\ exists w, Main.serve (exampleRequest "PUT" "/snippet/create") = Some w
               /\ headerOnceThenBody (calls w)
               /\ length (List.filter isWriteHeader (calls w)) = 1
               /\ List.filter isWrite (calls w) = [CallWrite (body w)].
Proof.
  assert (Hcan : Canonical.canonicalPath
                   (Path (Url (exampleRequest "PUT" "/snippet/create")))).
  { right. exists ["snippet"; "create"]. split; [discriminate |].
    split; [repeat constructor | left; reflexivity]. }
  split; [exact Hcan |].
  apply (serve_protocol (exampleRequest "PUT" "/snippet/create") Hcan).
Defined.

(** X8: all 404 replies of the mux are one and the same reply: nothing of
    the request, not its path, its method or its query, shows in it. *)
Theorem serve_404_replies_equal (r1 r2 : Request) (w1 w2 : ResponseWriter) :
  Main.serve r1 = Some w1 ->
  Main.serve r2 = Some w2 ->
  status w1 = 404 ->
  status w2 = 404 ->
  w1 = w2.
Proof.
  intros Hs1 Hs2 Hst1 Hst2.
  assert (Hnf : forall r w, Main.serve r = Some w -> status w = 404 ->
                            w = NotFound newResponseWriter (exampleRequest "" "")).
  { intros r w Hserve Hst. revert Hserve.
    destruct (ServerFacts.serve_cases r)
      as [[_ ->] | [[_ ->] | [(_ & _ & ->) | [(_ & _ & ->)
          | [(_ & _ & _ & _ & ->) | (_ & _ & _ & _ & _ & ->)]]]]];
      intros [= <-]; try discriminate Hst; try reflexivity.
    destruct (ServerFacts.redirect_reply r
                (URL_String {| Path := cleanPath (Path (Url r));
                               RawQuery := RawQuery (Url r) |}))
      as (_ & Hrs & _).
    rewrite Hrs in Hst. discriminate Hst. }
  by rewrite (Hnf _ _ Hs1 Hst1), (Hnf _ _ Hs2 Hst2).
Qed.

Lemma serve_404_replies_equal_witness :
  Main.serve (exampleRequest "GET" "/snippet")
  = Some (Main.home newResponseWriter (exampleRequest "GET" "/snippet"))
  /\ Main.serve (otherClientRequest "POST" "/snippet/view/")
     = Some (Main.home newResponseWriter (otherClientRequest "POST" "/snippet/view/"))
  /\ status (Main.home newResponseWriter (exampleRequest "GET" "/snippet")) = 404
  /\ status (Main.home newResponseWriter (otherClientRequest "POST" "/snippet/view/"))
     = 404
  /\ Main.home newResponseWriter (exampleRequest "GET" "/snippet")
     = Main.home newResponseWriter (otherClientRequest "POST" "/snippet/view/").
Proof.
  repeat (split; [reflexivity |]).
  apply (serve_404_replies_equal
           (exampleRequest "GET" "/snippet")
           (otherClientRequest "POST" "/snippet/view/"));
    reflexivity.
Defined.

(** X9: the two exact patterns have no subtree: a canonical path that
    continues /snippet/view or /snippet/create (a trailing slash, an
    identifier, any further byte) is resolved to [home] under the pattern
    "/", and [home] answers 404. *)
Theorem exact_pattern_extended_not_found (r : Request) (rest : string) :
  rest <> "" ->
  Path (Url r) = "/snippet/view" ++ rest
  \/ Path (Url r) = "/snippet/create" ++ rest ->
  Canonical.canonicalPath (Path (Url r)) ->
  exists mux w,
    Main.mux = Some mux
    /\ resolve mux r = Matched {| h := Main.home; pattern := "/" |}
    /\ Main.serve r = Some w
    /\ w = Main.home newResponseWriter r
    /\ status w = 404.
Proof.
  intros Hrest Hp Hcan.
  assert (Hne : exists c rest', rest = String c rest').
  { destruct rest as [|c rest']; [done | eauto]. }
  destruct Hne as (c & rest' & ->).
  assert (Hroot : Path (Url r) <> "/") by (destruct Hp as [-> | ->]; discriminate).
  assert (Hv : Path (Url r) <> "/snippet/view").
  { destruct Hp as [-> | ->]; discriminate. }
  assert (Hc : Path (Url r) <> "/snippet/create").
  { destruct Hp as [-> | ->]; discriminate. }
  assert (Hpre : exists t, Path (Url r) = String "/" t).
  { destruct Hp as [-> | ->]; eexists; reflexivity. }
  destruct Hpre as [t Ht].
  unfold Main.mux. rewrite RoutesFacts.routes_table. eexists _, _.
  split; [reflexivity |]. split.
  { rewrite (RoutesFacts.routes_resolve _ _ _ _ _ (RoutesFacts.routes_table _ _ _)).
    rewrite (CleanFacts.cleanPath_canonical _ Hcan), String.eqb_refl, orb_true_r.
    destruct (String.eqb_spec (Path (Url r)) "/snippet/view"); [done |].
    destruct (String.eqb_spec (Path (Url r)) "/snippet/create"); [done |].
    assert (HasPrefix (Path (Url r)) "/" = true) as ->; [| reflexivity].
    apply StringsFacts.HasPrefix_slash. eauto. }
  split; [exact (HandlerFacts.serve_canonical r Hcan Hv Hc) |].
  split; [reflexivity |].
  by rewrite (HandlerFacts.home_elsewhere _ _ Hroot), HandlerFacts.not_found_reply.
Qed.

Lemma exact_pattern_extended_not_found_witness :
  "/123" <> ""
  /\ (Path (Url (exampleRequest "GET" "/snippet/view/123")) = "/snippet/view" ++ "/123"
      \/ Path (Url (exampleRequest "GET" "/snippet/view/123"))
         = "/snippet/create" ++ "/123")
  /\ Canonical.canonicalPath (Path (Url (exampleRequest "GET" "/snippet/view/123")))
  /\ exists mux w,
       Main.mux = Some mux
       /\ resolve mux (exampleRequest "GET" "/snippet/view/123")
          = Matched {| h := Main.home; pattern := "/" |}
       /\ Main.serve (exampleRequest "GET" "/snippet/view/123") = Some w
       /\ w = Main.home newResponseWriter (exampleRequest "GET" "/snippet/view/123")
       /\ status w = 404.
Proof.
  assert (Hcan : Canonical.canonicalPath
                   (Path (Url (exampleRequest "GET" "/snippet/view/123")))).
  { right. exists ["snippet"; "view"; "123"]. split; [discriminate |].
    split; [repeat constructor | left; reflexivity]. }
  split; [discriminate |]. split; [left; reflexivity |]. split; [exact Hcan |].
  apply (exact_pattern_extended_not_found
           (exampleRequest "GET" "/snippet/view/123") "/123");
    [discriminate | left; reflexivity | exact Hcan].
Defined.

(** * The handlers on a writer that is not fresh *)

Module WriterFacts.
Import Strings NetHttp.

(** [Write] before the status line went out: 200 is sent with the headers
    as they stand. *)
Lemma Write_uncommitted (w : ResponseWriter) (data : string) :
  wroteHeader w = false ->
  Write w data
  = {| handlerHeader := handlerHeader w; wroteHeader := true; status := 200;
       sentHeader := handlerHeader w; body := body w ++ data;
       calls := calls w ++ [CallWriteHeader 200; CallWrite data] |}.
Proof.
  intros Hw. unfold Write, WriteHeader. rewrite Hw. cbn.
  by rewrite <- app_assoc.
Qed.

(** [Write] after it: only the body grows. *)
Lemma Write_committed (w : ResponseWriter) (data : string) :
  wroteHeader w = true ->
  Write w data
  = {| handlerHeader := handlerHeader w; wroteHeader := true; status := status w;
       sentHeader := sentHeader w; body := body w ++ data;
       calls := calls w ++ [CallWrite data] |}.
Proof. intros Hw. unfold Write. rewrite Hw. cbn. by rewrite Hw. Qed.

Lemma Error_uncommitted (w : ResponseWriter) (error : string) (code : nat) :
  wroteHeader w = false ->
  Error w error code
  = {| handlerHeader :=
         <["X-Content-Type-Options" := ["nosniff"]]>
           (<["Content-Type" := ["text/plain; charset=utf-8"]]>
              (delete "Content-Length" (handlerHeader w)));
       wroteHeader := true; status := code;
       sentHeader :=
         <["X-Content-Type-Options" := ["nosniff"]]>
           (<["Content-Type" := ["text/plain; charset=utf-8"]]>
              (delete "Content-Length" (handlerHeader w)));
       body := body w ++ (error ++ newline);
       calls := calls w
                ++ [CallHeaderDel "Content-Length";
                    CallHeaderSet "Content-Type" "text/plain; charset=utf-8";
                    CallHeaderSet "X-Content-Type-Options" "nosniff";
                    CallWriteHeader code;
                    CallWrite (error ++ newline)] |}.
Proof.
  intros Hw. unfold Error, Fprintln, Write, WriteHeader, SetHeader, DelHeader.
  cbn. rewrite Hw. cbn. by rewrite <- !app_assoc.
Qed.

Lemma Error_committed (w : ResponseWriter) (error : string) (code : nat) :
  wroteHeader w = true ->
  Error w error code
  = {| handlerHeader :=
         <["X-Content-Type-Options" := ["nosniff"]]>
           (<["Content-Type" := ["text/plain; charset=utf-8"]]>
              (delete "Content-Length" (handlerHeader w)));
       wroteHeader := true; status := status w;
       sentHeader := sentHeader w;
       body := body w ++ (error ++ newline);
       calls := calls w
                ++ [CallHeaderDel "Content-Length";
                    CallHeaderSet "Content-Type" "text/plain; charset=utf-8";
                    CallHeaderSet "X-Content-Type-Options" "nosniff";
                    CallWriteHeader code;
                    CallWrite (error ++ newline)] |}.
Proof.
  intros Hw. unfold Error, Fprintln, Write, WriteHeader, SetHeader, DelHeader.
  cbn. rewrite Hw. cbn. by rewrite <- !app_assoc.
Qed.

End WriterFacts.

(** X10: on any writer, in any state, each handler call (the three of
    [main.go] and the [home] of the earlier revision) leaves the status
    line sent and calls [Write] exactly once, with a non-empty text; the
    calls made on the writer before stay in front. *)
Theorem handlers_append_one_write :
  Forall (fun hd : HandlerFunc =>
            forall (w : ResponseWriter) (r : Request),
              wroteHeader (hd w r) = true
              /\ exists t cs,
                   t <> ""
                   /\ calls (hd w r) = (calls w ++ cs)%list
                   /\ List.filter isWrite cs = [CallWrite t])
         [Main.home; Main.snippetView; Main.snippetCreate; Part000.home].
Proof.
  assert (HW : forall w data, data <> "" ->
             wroteHeader (Write w data) = true
             /\ exists t cs, t <> ""
                             /\ calls (Write w data) = (calls w ++ cs)%list
                             /\ List.filter isWrite cs = [CallWrite t]).
  { intros w data Hd. destruct (wroteHeader w) eqn:Hw.
    - rewrite (WriterFacts.Write_committed _ _ Hw). cbn [wroteHeader calls].
      split; [done |]. by exists data, [CallWrite data].
    - rewrite (WriterFacts.Write_uncommitted _ _ Hw). cbn [wroteHeader calls].
      split; [done |]. by exists data, [CallWriteHeader 200; CallWrite data]. }
  assert (HE : forall w e c,
             wroteHeader (Error w e c) = true
             /\ exists t cs, t <> ""
                             /\ calls (Error w e c) = (calls w ++ cs)%list
                             /\ List.filter isWrite cs = [CallWrite t]).
  { intros w e c.
    assert (Hne : e ++ newline <> "") by (destruct e; discriminate).
    destruct (wroteHeader w) eqn:Hw.
    - rewrite (WriterFacts.Error_committed _ _ _ Hw). cbn [wroteHeader calls].
      split; [done |]. eexists _, _. split; [exact Hne |]. done.
    - rewrite (WriterFacts.Error_uncommitted _ _ _ Hw). cbn [wroteHeader calls].
      split; [done |]. eexists _, _. split; [exact Hne |]. done. }
  repeat (apply List.Forall_cons; [intros w r |]); [| | | | apply List.Forall_nil].
  - unfold Main.home, NotFound. destruct (negb _); [apply HE | by apply HW].
  - by apply HW.
  - unfold Main.snippetCreate. destruct (negb _).
    + destruct (HE (SetHeader w "Allow" MethodPost)
                   "Method Not Allowed" StatusMethodNotAllowed)
        as (Hwh & t & cs & Ht & Hc & Hf).
      split; [exact Hwh |].
      exists t, (CallHeaderSet "Allow" MethodPost :: cs).
      split; [exact Ht |]. split; [| exact Hf].
      rewrite Hc. cbn [SetHeader calls]. by rewrite <- app_assoc.
    + by apply HW.
  - by apply HW.
Qed.

(** X11: on a writer whose status line went out before the handler ran,
    no handler changes the status or the headers sent: the 404 of [home]
    and the 405 and the Allow header of [snippetCreate] do not reach the
    client, only their text is appended. *)
Theorem handlers_after_status_sent (w : ResponseWriter) (r : Request) :
  wroteHeader w = true ->
  Forall (fun hd : HandlerFunc =>
            status (hd w r) = status w /\ sentHeader (hd w r) = sentHeader w)
         [Main.home; Main.snippetView; Main.snippetCreate; Part000.home].
Proof.
  intros Hw.
  assert (HW : forall data, status (Write w data) = status w
                            /\ sentHeader (Write w data) = sentHeader w).
  { intros data. by rewrite (WriterFacts.Write_committed _ _ Hw). }
  repeat (apply List.Forall_cons; [|]); [| | | | apply List.Forall_nil].
  - unfold Main.home, NotFound. destruct (negb _); [| apply HW].
    by rewrite (WriterFacts.Error_committed _ _ _ Hw).
  - apply HW.
  - unfold Main.snippetCreate. destruct (negb _); [| apply HW].
    by rewrite WriterFacts.Error_committed.
  - apply HW.
Qed.

Lemma handlers_after_status_sent_witness :
  wroteHeader (WriteHeader newResponseWriter 500) = true
  /\ Forall (fun hd : HandlerFunc =>
               status (hd (WriteHeader newResponseWriter 500)
                          (exampleRequest "GET" "/snippet/create"))
               = status (WriteHeader newResponseWriter 500)
               /\ sentHeader (hd (WriteHeader newResponseWriter 500)
                                 (exampleRequest "GET" "/snippet/create"))
                  = sentHeader (WriteHeader newResponseWriter 500))
            [Main.home; Main.snippetView; Main.snippetCreate; Part000.home].
Proof.
  split; [reflexivity |].
  apply (handlers_after_status_sent (WriteHeader newResponseWriter 500)
           (exampleRequest "GET" "/snippet/create")).
  reflexivity.
Defined.

(** X12: on any writer whose status line has not gone out, whatever
    headers and body it holds already, the status each handler sends is
    the one it sends on a fresh writer, and a 200 reply sends the headers
    exactly as the handler found them. *)
Theorem handlers_before_status_sent (w : ResponseWriter) (r : Request) :
  wroteHeader w = false ->
  status (Main.home w r) = (if String.eqb (Path (Url r)) "/" then 200 else 404)
  /\ status (Main.snippetView w r) = 200
  /\ status (Main.snippetCreate w r)
     = (if String.eqb (Method r) "POST" then 200 else 405)
  /\ status (Part000.home w r) = 200
  /\ sentHeader (Main.snippetView w r) = handlerHeader w
  /\ sentHeader (Part000.home w r) = handlerHeader w
  /\ (Path (Url r) = "/" -> sentHeader (Main.home w r) = handlerHeader w)
  /\ (Method r = "POST" -> sentHeader (Main.snippetCreate w r) = handlerHeader w).
Proof.
  intros Hw.
  assert (HW : forall data, status (Write w data) = 200
                            /\ sentHeader (Write w data) = handlerHeader w).
  { intros data. by rewrite (WriterFacts.Write_uncommitted _ _ Hw). }
  split.
  { unfold Main.home, NotFound. destruct (String.eqb _ _); cbn [negb].
    - apply HW.
    - by rewrite (WriterFacts.Error_uncommitted _ _ _ Hw). }
  split; [apply HW |]. split.
  { unfold Main.snippetCreate. destruct (String.eqb _ _); cbn [negb].
    - apply HW.
    - by rewrite WriterFacts.Error_uncommitted. }
  split; [apply HW |]. split; [apply HW |]. split; [apply HW |]. split.
  - intros Hp. rewrite (HandlerFacts.home_root _ _ Hp). apply HW.
  - intros Hm. rewrite (HandlerFacts.snippetCreate_post _ _ Hm). apply HW.
Qed.

Lemma handlers_before_status_sent_witness :
  wroteHeader (SetHeader newResponseWriter "Cache-Control" "no-store") = false
  /\ status (Main.home (SetHeader newResponseWriter "Cache-Control" "no-store")
                       (exampleRequest "POST" "/"))
     = (if String.eqb (Path (Url (exampleRequest "POST" "/"))) "/" then 200 else 404)
  /\ status (Main.snippetView (SetHeader newResponseWriter "Cache-Control" "no-store")
                              (exampleRequest "POST" "/")) = 200
  /\ status (Main.snippetCreate (SetHeader newResponseWriter "Cache-Control" "no-store")
                                (exampleRequest "POST" "/"))
     = (if String.eqb (Method (exampleRequest "POST" "/")) "POST" then 200 else 405)
  /\ status (Part000.home (SetHeader newResponseWriter "Cache-Control" "no-store")
                          (exampleRequest "POST" "/")) = 200
  /\ sentHeader (Main.snippetView (SetHeader newResponseWriter "Cache-Control" "no-store")
                                  (exampleRequest "POST" "/"))
     = handlerHeader (SetHeader newResponseWriter "Cache-Control" "no-store")
  /\ sentHeader (Part000.home (SetHeader newResponseWriter "Cache-Control" "no-store")
                              (exampleRequest "POST" "/"))
     = handlerHeader (SetHeader newResponseWriter "Cache-Control" "no-store")
  /\ (Path (Url (exampleRequest "POST" "/")) = "/" ->
      sentHeader (Main.home (SetHeader newResponseWriter "Cache-Control" "no-store")
                            (exampleRequest "POST" "/"))
      = handlerHeader (SetHeader newResponseWriter "Cache-Control" "no-store"))
  /\ (Method (exampleRequest "POST" "/") = "POST" ->
      sentHeader (Main.snippetCreate (SetHeader newResponseWriter "Cache-Control" "no-store")
                                     (exampleRequest "POST" "/"))
      = handlerHeader (SetHeader newResponseWriter "Cache-Control" "no-store")).
Proof.
  split; [reflexivity |].
  apply (handlers_before_status_sent
           (SetHeader newResponseWriter "Cache-Control" "no-store")
           (exampleRequest "POST" "/")).
  reflexivity.
Defined.

(** X13: the 405 reply of [snippetCreate] on a writer whose status line
    has not gone out: Allow is POST whatever it was, the content type is
    plain text, marked nosniff, a Content-Length set before is dropped, and
    every other header set before is sent along unchanged. *)
Theorem snippetCreate_405_headers (w : ResponseWriter) (r : Request) :
  wroteHeader w = false ->
  Method r <> "POST" ->
  status (Main.snippetCreate w r) = 405
  /\ sentHeader (Main.snippetCreate w r) !! "Allow" = Some ["POST"]
  /\ sentHeader (Main.snippetCreate w r) !! "Content-Type"
     = Some ["text/plain; charset=utf-8"]
  /\ sentHeader (Main.snippetCreate w r) !! "X-Content-Type-Options" = Some ["nosniff"]
  /\ sentHeader (Main.snippetCreate w r) !! "Content-Length" = None
  /\ (forall key,
        key <> "Allow" -> key <> "Content-Type" ->
        key <> "X-Content-Type-Options" -> key <> "Content-Length" ->
        sentHeader (Main.snippetCreate w r) !! key = handlerHeader w !! key).
Proof.
  intros Hw Hm. rewrite (HandlerFacts.snippetCreate_not_post _ _ Hm).
  rewrite WriterFacts.Error_uncommitted by exact Hw.
  cbn [status sentHeader SetHeader handlerHeader].
  change (Header_Set (handlerHeader w) "Allow" MethodPost)
    with (<["Allow" := ["POST"]]> (handlerHeader w)).
  split; [reflexivity |].
  split; [by rewrite !lookup_insert_ne, lookup_delete_ne, lookup_insert_eq |].
  split; [by rewrite lookup_insert_ne, lookup_insert_eq |].
  split; [by rewrite lookup_insert_eq |].
  split; [by rewrite !lookup_insert_ne, lookup_delete_eq |].
  intros key Ha Hct Hx Hcl.
  by rewrite !lookup_insert_ne, lookup_delete_ne, lookup_insert_ne.
Qed.

Lemma snippetCreate_405_headers_witness :
  wroteHeader (SetHeader (SetHeader newResponseWriter "Allow" "GET")
                         "Content-Length" "3") = false
  /\ Method (exampleRequest "GET" "/snippet/create") <> "POST"
  /\ status (Main.snippetCreate
               (SetHeader (SetHeader newResponseWriter "Allow" "GET") "Content-Length" "3")
               (exampleRequest "GET" "/snippet/create")) = 405
  /\ sentHeader (Main.snippetCreate
                   (SetHeader (SetHeader newResponseWriter "Allow" "GET") "Content-Length" "3")
                   (exampleRequest "GET" "/snippet/create")) !! "Allow" = Some ["POST"]
  /\ sentHeader (Main.snippetCreate
                   (SetHeader (SetHeader newResponseWriter "Allow" "GET") "Content-Length" "3")
                   (exampleRequest "GET" "/snippet/create")) !! "Content-Type"
     = Some ["text/plain; charset=utf-8"]
  /\ sentHeader (Main.snippetCreate
                   (SetHeader (SetHeader newResponseWriter "Allow" "GET") "Content-Length" "3")
                   (exampleRequest "GET" "/snippet/create")) !! "X-Content-Type-Options"
     = Some ["nosniff"]
  /\ sentHeader (Main.snippetCreate
                   (SetHeader (SetHeader newResponseWriter "Allow" "GET") "Content-Length" "3")
                   (exampleRequest "GET" "/snippet/create")) !! "Content-Length" = None
  /\ (forall key,
        key <> "Allow" -> key <> "Content-Type" ->
        key <> "X-Content-Type-Options" -> key <> "Content-Length" ->
        sentHeader (Main.snippetCreate
                      (SetHeader (SetHeader newResponseWriter "Allow" "GET")
                                 "Content-Length" "3")
                      (exampleRequest "GET" "/snippet/create")) !! key
        = handlerHeader (SetHeader (SetHeader newResponseWriter "Allow" "GET")
                                   "Content-Length" "3") !! key).
Proof.
  split; [reflexivity |]. split; [discriminate |].
  apply (snippetCreate_405_headers
           (SetHeader (SetHeader newResponseWriter "Allow" "GET") "Content-Length" "3")
           (exampleRequest "GET" "/snippet/create"));
    [reflexivity | discriminate].
Defined.

(** * The earlier revision's mux, and the two side by side *)

(** X14: the mux of the earlier revision greets on every path in canonical
    form, whatever follows the root and whatever the method: the request
    is resolved to [home] under the pattern "/", and the reply has status
    200 and body "Hello, World!". *)
Theorem part000_serves_hello_everywhere (r : Request) :
  Canonical.canonicalPath (Path (Url r)) ->
  exists mux w,
    Part000.mux = Some mux
    /\ resolve mux r = Matched {| h := Part000.home; pattern := "/" |}
    /\ Part000.serve r = Some w
    /\ status w = 200
    /\ body w = "Hello, World!".
Proof.
  intros Hcan.
  destruct (CleanFacts.canonicalPath_rooted _ Hcan) as [rest Hrest].
  assert (Hpre : HasPrefix (Path (Url r)) "/" = true)
    by (apply StringsFacts.HasPrefix_slash; eauto).
  rewrite Part000Facts.part000_table. eexists _, _.
  split; [reflexivity |]. split.
  { rewrite MuxFacts.resolve_without_slash_redirect
      by apply Part000Facts.part000_shouldRedirect.
    rewrite (CleanFacts.cleanPath_canonical _ Hcan), String.eqb_refl, orb_true_r.
    unfold handler, match_. cbn [m es].
    rewrite lookup_insert, lookup_empty. case_decide as Hroot; [reflexivity |].
    cbn [matchSubtree pattern]. by rewrite Hpre. }
  split.
  { rewrite Part000Facts.part000_serve_dispatch.
    rewrite (CleanFacts.cleanPath_canonical _ Hcan), String.eqb_refl, orb_true_r.
    by rewrite Hpre. }
  unfold Part000.home. by rewrite HandlerFacts.write_fresh.
Qed.

Lemma part000_serves_hello_everywhere_witness :
  Canonical.canonicalPath (Path (Url (exampleRequest "DELETE" "/snippet/view")))
  /\ exists mux w,
       Part000.mux = Some mux
       /\ resolve mux (exampleRequest "DELETE" "/snippet/view")
          = Matched {| h := Part000.home; pattern := "/" |}
       /\ Part000.serve (exampleRequest "DELETE" "/snippet/view") = Some w
       /\ status w = 200
       /\ body w = "Hello, World!".
Proof.
  assert (Hcan : Canonical.canonicalPath
                   (Path (Url (exampleRequest "DELETE" "/snippet/view")))).
  { right. exists ["snippet"; "view"]. split; [discriminate |].
    split; [repeat constructor | left; reflexivity]. }
  split; [exact Hcan |].
  apply (part000_serves_hello_everywhere (exampleRequest "DELETE" "/snippet/view") Hcan).
Defined.

(** X15: for a request other than CONNECT, the muxes of the two revisions
    give the same reply exactly when the path is "/" or is not in
    canonical form (then both send the same redirect); on every other
    canonical path their replies differ. *)
Theorem revisions_servers_agree_iff (r : Request) :
  Method r <> "CONNECT" ->
  Part000.serve r = Main.serve r
  <-> Path (Url r) = "/" \/ ~ Canonical.canonicalPath (Path (Url r)).
Proof.
  intros Hnc. apply String.eqb_neq in Hnc.
  rewrite Part000Facts.part000_serve_dispatch, Hnc. cbn [orb]. split.
  - intros Heq.
    destruct (String.eqb_spec (cleanPath (Path (Url r))) (Path (Url r)))
      as [Hfix | Hfix]; [| right; by rewrite <- CleanFacts.cleanPath_fixed_iff].
    left. apply CleanFacts.cleanPath_fixed_iff in Hfix as Hcan.
    destruct (CleanFacts.canonicalPath_rooted _ Hcan) as [rest Hrest].
    assert (Hpre : HasPrefix (Path (Url r)) "/" = true)
      by (apply StringsFacts.HasPrefix_slash; eauto).
    rewrite Hpre in Heq. revert Heq. unfold Part000.home.
    destruct (ServerFacts.serve_cases r)
      as [[Hp _] | [[_ ->] | [(_ & _ & ->) | [(_ & _ & ->)
          | [(_ & _ & _ & _ & ->) | (_ & Hno & _)]]]]];
      [done | | | | | done];
      rewrite ?HandlerFacts.write_fresh, ?HandlerFacts.method_not_allowed_reply,
              ?HandlerFacts.not_found_reply;
      intros Heq; apply (f_equal (fmap body)) in Heq; cbn in Heq; discriminate Heq.
  - intros [Hp | Hno].
    + rewrite (HandlerFacts.serve_root _ Hp), Hp.
      change (cleanPath "/" =? "/") with true. cbn match.
      by rewrite (HandlerFacts.home_root _ _ Hp).
    + rewrite RoutesFacts.serve_dispatch, Hnc. cbn [orb].
      destruct (String.eqb_spec (cleanPath (Path (Url r))) (Path (Url r)))
        as [Hfix | _]; [| reflexivity].
      by apply CleanFacts.cleanPath_fixed_iff in Hfix.
Qed.

Lemma revisions_servers_agree_iff_witness :
  Method (exampleRequest "GET" "//") <> "CONNECT"
  /\ (Part000.serve (exampleRequest "GET" "//") = Main.serve (exampleRequest "GET" "//")
      <-> Path (Url (exampleRequest "GET" "//")) = "/"
          \/ ~ Canonical.canonicalPath (Path (Url (exampleRequest "GET" "//"))))
  /\ Part000.serve (exampleRequest "GET" "//") = Main.serve (exampleRequest "GET" "//").
Proof.
  split; [discriminate |]. split.
  - apply (revisions_servers_agree_iff (exampleRequest "GET" "//")). discriminate.
  - reflexivity.
Defined.

(** * The table does not remember the order of registration *)

Module MuxOrderFacts.
Import Strings StringsFacts NetHttp MuxTable MuxFacts.

(** Two prefixes of one string that are equally long are equal. *)
Lemma HasPrefix_same_length (s p q : string) :
  HasPrefix s p = true -> HasPrefix s q = true ->
  String.length p = String.length q -> p = q.
Proof.
  unfold HasPrefix. intros Hp Hq Hlen.
  apply andb_true_iff in Hp as [_ Hp]. apply andb_true_iff in Hq as [_ Hq].
  apply String.eqb_eq in Hp, Hq. rewrite <- Hp, <- Hq. by rewrite Hlen.
Qed.

Section Mux.
Context {T : Type}.
Implicit Types (mux : ServeMux T) (e : muxEntry T) (path : string).

(** What the scan of [es] returns, said without [es]: the registered
    subtree entry that is a prefix of the path and is the longest such. *)
Lemma matchSubtree_characterised mux path e :
  wf mux ->
  matchSubtree (es mux) path = Some e
  <-> registered mux e /\ subtreeMatch e path
      /\ forall e', registered mux e' -> subtreeMatch e' path ->
                    String.length (pattern e') <= String.length (pattern e).
Proof.
  intros Hwf. split.
  - intros Hm. pose proof (matchSubtree_Some _ _ _ Hm) as [Hin Hp].
    apply (wf_es _ Hwf) in Hin as [Hreg Hslash].
    split; [exact Hreg |]. split; [by split |].
    intros e' Hreg' [Hslash' Hp'].
    assert (Hin' : e' ∈ es mux) by (by apply (wf_es _ Hwf)).
    destruct (matchSubtree_longest _ _ _ (wf_sorted _ Hwf) Hin' Hp')
      as (e0 & Hm0 & _ & _ & Hlen).
    rewrite Hm in Hm0. by injection Hm0 as <-.
  - intros (Hreg & [Hslash Hp] & Hmax).
    assert (Hin : e ∈ es mux) by (by apply (wf_es _ Hwf)).
    destruct (matchSubtree_longest _ _ _ (wf_sorted _ Hwf) Hin Hp)
      as (e0 & Hm0 & Hin0 & Hp0 & Hlen).
    apply (wf_es _ Hwf) in Hin0 as [Hreg0 Hslash0].
    assert (Hpat : pattern e0 = pattern e).
    { apply (HasPrefix_same_length path); [done | done |].
      specialize (Hmax e0 Hreg0 (conj Hslash0 Hp0)). lia. }
    unfold registered in Hreg, Hreg0. rewrite Hpat, Hreg in Hreg0.
    injection Hreg0 as ->. exact Hm0.
Qed.

End Mux.
End MuxOrderFacts.

(** X16: what the mux resolves depends on the set of registrations only,
    not on the order of the [Handle] calls: two tables that satisfy the
    invariant [Handle] keeps and that hold the same entries resolve every
    path alike, also where their [es] lists are in different orders. *)
Theorem dispatch_ignores_registration_order
    (T : Type) (mux1 mux2 : ServeMux T) (path : string) :
  wf mux1 -> wf mux2 -> m mux1 = m mux2 ->
  match_ mux1 path = match_ mux2 path.
Proof.
  intros Hwf1 Hwf2 Hm. unfold match_. rewrite Hm.
  destruct (m mux2 !! path) as [v|]; [reflexivity |].
  assert (Hreg : forall e, registered mux1 e <-> registered mux2 e).
  { intros e. unfold registered. by rewrite Hm. }
  destruct (matchSubtree (es mux1) path) as [e1|] eqn:H1.
  - symmetry. apply (MuxOrderFacts.matchSubtree_characterised _ _ _ Hwf2).
    apply (MuxOrderFacts.matchSubtree_characterised _ _ _ Hwf1) in H1
      as (Hr & Hs & Hmax).
    split; [by apply Hreg |]. split; [done |].
    intros e' Hr'. apply Hmax. by apply Hreg.
  - symmetry. apply MuxFacts.matchSubtree_None. intros e Hin.
    apply (wf_es _ Hwf2) in Hin. rewrite <- Hreg in Hin.
    apply (wf_es _ Hwf1) in Hin.
    by apply (proj1 (MuxFacts.matchSubtree_None _ _) H1).
Qed.

Lemma dispatch_ignores_registration_order_witness :
  wf {| m := <["/b/" := {| h := 2; pattern := "/b/" |}]>
               (<["/a/" := {| h := 1; pattern := "/a/" |}]> ∅);
        es := [{| h := 1; pattern := "/a/" |}; {| h := 2; pattern := "/b/" |}] |}
  /\ wf {| m := <["/a/" := {| h := 1; pattern := "/a/" |}]>
                  (<["/b/" := {| h := 2; pattern := "/b/" |}]> ∅);
           es := [{| h := 2; pattern := "/b/" |}; {| h := 1; pattern := "/a/" |}] |}
  /\ m {| m := <["/b/" := {| h := 2; pattern := "/b/" |}]>
                 (<["/a/" := {| h := 1; pattern := "/a/" |}]> ∅);
          es := [{| h := 1; pattern := "/a/" |}; {| h := 2; pattern := "/b/" |}] |}
     = m {| m := <["/a/" := {| h := 1; pattern := "/a/" |}]>
                   (<["/b/" := {| h := 2; pattern := "/b/" |}]> ∅);
            es := [{| h := 2; pattern := "/b/" |}; {| h := 1; pattern := "/a/" |}] |}
  /\ match_ {| m := <["/b/" := {| h := 2; pattern := "/b/" |}]>
                      (<["/a/" := {| h := 1; pattern := "/a/" |}]> ∅);
               es := [{| h := 1; pattern := "/a/" |}; {| h := 2; pattern := "/b/" |}] |}
            "/b/x"
     = match_ {| m := <["/a/" := {| h := 1; pattern := "/a/" |}]>
                        (<["/b/" := {| h := 2; pattern := "/b/" |}]> ∅);
                 es := [{| h := 2; pattern := "/b/" |}; {| h := 1; pattern := "/a/" |}] |}
              "/b/x".
Proof.
  assert (H1 : wf {| m := <["/b/" := {| h := 2; pattern := "/b/" |}]>
                            (<["/a/" := {| h := 1; pattern := "/a/" |}]> ∅);
                     es := [{| h := 1; pattern := "/a/" |};
                            {| h := 2; pattern := "/b/" |}] |}).
  { apply (MuxFacts.wf_Handle
             {| m := <["/a/" := {| h := 1; pattern := "/a/" |}]> ∅;
                es := [{| h := 1; pattern := "/a/" |}] |} "/b/" 2);
      [| reflexivity].
    apply (MuxFacts.wf_Handle NewServeMux "/a/" 1); [| reflexivity].
    apply MuxFacts.wf_NewServeMux. }
  assert (H2 : wf {| m := <["/a/" := {| h := 1; pattern := "/a/" |}]>
                            (<["/b/" := {| h := 2; pattern := "/b/" |}]> ∅);
                     es := [{| h := 2; pattern := "/b/" |};
                            {| h := 1; pattern := "/a/" |}] |}).
  { apply (MuxFacts.wf_Handle
             {| m := <["/b/" := {| h := 2; pattern := "/b/" |}]> ∅;
                es := [{| h := 2; pattern := "/b/" |}] |} "/a/" 1);
      [| reflexivity].
    apply (MuxFacts.wf_Handle NewServeMux "/b/" 2); [| reflexivity].
    apply MuxFacts.wf_NewServeMux. }
  split; [exact H1 |]. split; [exact H2 |]. split; [reflexivity |].
  apply (dispatch_ignores_registration_order nat _ _ "/b/x" H1 H2). reflexivity.
Defined.

(** X17: the order of the three [HandleFunc] calls of [main] is
    immaterial: each of the five other orders succeeds too and builds the
    very same table. *)
Theorem routes_order_immaterial (T : Type) (hHome hView hCreate : T) :
  is_Some (Main.routes hHome hView hCreate)
  /\ (mux ← Handle NewServeMux "/" hHome;
      mux ← Handle mux "/snippet/create" hCreate;
      Handle mux "/snippet/view" hView) = Main.routes hHome hView hCreate
  /\ (mux ← Handle NewServeMux "/snippet/view" hView;
      mux ← Handle mux "/" hHome;
      Handle mux "/snippet/create" hCreate) = Main.routes hHome hView hCreate
  /\ (mux ← Handle NewServeMux "/snippet/view" hView;
      mux ← Handle mux "/snippet/create" hCreate;
      Handle mux "/" hHome) = Main.routes hHome hView hCreate
  /\ (mux ← Handle NewServeMux "/snippet/create" hCreate;
      mux ← Handle mux "/" hHome;
      Handle mux "/snippet/view" hView) = Main.routes hHome hView hCreate
  /\ (mux ← Handle NewServeMux "/snippet/create" hCreate;
      mux ← Handle mux "/snippet/view" hView;
      Handle mux "/" hHome) = Main.routes hHome hView hCreate.
Proof.
  split; [rewrite RoutesFacts.routes_table; by eexists |].
  repeat split; reflexivity.
Qed.

(** X19: for a request other than CONNECT, the body tells the case: each
    of the five texts of the program is sent for its own case of path and
    method and for no other request; the not-found line for the canonical
    paths outside the three patterns. *)
Theorem serve_body_iff (r : Request) :
  Method r <> "CONNECT" ->
  exists w, Main.serve r = Some w
    /\ (body w = "Hello, World!" <-> Path (Url r) = "/")
    /\ (body w = "Display a snippet..." <-> Path (Url r) = "/snippet/view")
    /\ (body w = "Create a new snippet..."
        <-> Path (Url r) = "/snippet/create" /\ Method r = "POST")
    /\ (body w = "Method Not Allowed" ++ newline
        <-> Path (Url r) = "/snippet/create" /\ Method r <> "POST")
    /\ (body w = "404 page not found" ++ newline
        <-> Canonical.canonicalPath (Path (Url r))
            /\ Path (Url r) <> "/" /\ Path (Url r) <> "/snippet/view"
            /\ Path (Url r) <> "/snippet/create").
Proof.
  intros Hnc0.
  destruct (ServerFacts.serve_cases r)
    as [[Hp ->] | [[Hp ->] | [(Hp & Hm & ->) | [(Hp & Hm & ->)
        | [(Hsv & H1 & H2 & H3 & ->) | (Hm & Hnc & H1 & H2 & H3 & ->)]]]]];
    eexists; (split; [reflexivity |]);
    rewrite ?HandlerFacts.write_fresh, ?HandlerFacts.method_not_allowed_reply,
            ?HandlerFacts.not_found_reply;
    try (destruct (ServerFacts.redirect_reply r
                     (URL_String {| Path := cleanPath (Path (Url r));
                                    RawQuery := RawQuery (Url r) |}))
           as (Hrw & Hrs & Hra & Hrl & Hrb));
    cbn [body]; split_and!; (apply conj; intros Hx);
    try discriminate Hx; try done; try (destruct Hx; congruence);
    try (destruct Hx as (? & ? & ? & ?); congruence); try congruence;
    try (destruct Hsv as [Hsv | Hsv]; done);
    try (destruct Hrb as [Hrb | [t Hrb]]; rewrite Hrb in Hx; discriminate Hx).
Qed.

Lemma serve_body_iff_witness :
  Method (exampleRequest "GET" "/snippet/create") <> "CONNECT"
  /\ exists w, Main.serve (exampleRequest "GET" "/snippet/create") = Some w
    /\ (body w = "Hello, World!"
        <-> Path (Url (exampleRequest "GET" "/snippet/create")) = "/")
    /\ (body w = "Display a snippet..."
        <-> Path (Url (exampleRequest "GET" "/snippet/create")) = "/snippet/view")
    /\ (body w = "Create a new snippet..."
        <-> Path (Url (exampleRequest "GET" "/snippet/create")) = "/snippet/create"
            /\ Method (exampleRequest "GET" "/snippet/create") = "POST")
    /\ (body w = "Method Not Allowed" ++ newline
        <-> Path (Url (exampleRequest "GET" "/snippet/create")) = "/snippet/create"
            /\ Method (exampleRequest "GET" "/snippet/create") <> "POST")
    /\ (body w = "404 page not found" ++ newline
        <-> Canonical.canonicalPath (Path (Url (exampleRequest "GET" "/snippet/create")))
            /\ Path (Url (exampleRequest "GET" "/snippet/create")) <> "/"
            /\ Path (Url (exampleRequest "GET" "/snippet/create")) <> "/snippet/view"
            /\ Path (Url (exampleRequest "GET" "/snippet/create")) <> "/snippet/create").
Proof.
  split; [discriminate |].
  apply (serve_body_iff (exampleRequest "GET" "/snippet/create")). discriminate.
Defined.

(** X20: when one handler runs after another on the same writer, the first
    one decides the status and the headers; the second can only add to the
    body.  It holds for every pair among the four handlers, whatever the
    writer and the two requests. *)
Theorem first_handler_decides_status
    (w : ResponseWriter) (r1 r2 : Request) :
  Forall (fun hd1 : HandlerFunc =>
    Forall (fun hd2 : HandlerFunc =>
      status (hd2 (hd1 w r1) r2) = status (hd1 w r1)
      /\ sentHeader (hd2 (hd1 w r1) r2) = sentHeader (hd1 w r1)
      /\ exists t, body (hd2 (hd1 w r1) r2) = body (hd1 w r1) ++ t)
      [Main.home; Main.snippetView; Main.snippetCreate; Part000.home])
    [Main.home; Main.snippetView; Main.snippetCreate; Part000.home].
Proof.
  assert (Hsent : forall hd : HandlerFunc,
            hd ∈ [Main.home; Main.snippetView; Main.snippetCreate; Part000.home] ->
            forall w' r', wroteHeader (hd w' r') = true).
  { intros hd Hin w' r'.
    assert (HW : forall data, wroteHeader (Write w' data) = true).
    { intros data. destruct (wroteHeader w') eqn:Hw;
        by rewrite ?(WriterFacts.Write_committed _ _ Hw),
                   ?(WriterFacts.Write_uncommitted _ _ Hw). }
    assert (HE : forall w0 e c, wroteHeader (Error w0 e c) = true).
    { intros w0 e c. destruct (wroteHeader w0) eqn:Hw;
        by rewrite ?(WriterFacts.Error_committed _ _ _ Hw),
                   ?(WriterFacts.Error_uncommitted _ _ _ Hw). }
    repeat (apply elem_of_cons in Hin as [-> | Hin]).
    - unfold Main.home, NotFound. destruct (negb _); [apply HE | apply HW].
    - apply HW.
    - unfold Main.snippetCreate. destruct (negb _); [apply HE | apply HW].
    - apply HW.
    - by apply elem_of_nil in Hin. }
  assert (Hsecond : forall (hd : HandlerFunc) w' r',
            hd ∈ [Main.home; Main.snippetView; Main.snippetCreate; Part000.home] ->
            wroteHeader w' = true ->
            status (hd w' r') = status w'
            /\ sentHeader (hd w' r') = sentHeader w'
            /\ exists t, body (hd w' r') = body w' ++ t).
  { intros hd w' r' Hin Hw.
    assert (HW : forall data, status (Write w' data) = status w'
                              /\ sentHeader (Write w' data) = sentHeader w'
                              /\ exists t, body (Write w' data) = body w' ++ t).
    { intros data. rewrite (WriterFacts.Write_committed _ _ Hw).
      cbn [status sentHeader body]. eauto. }
    assert (HE : forall w0 e c, wroteHeader w0 = true -> body w0 = body w' ->
                   status w0 = status w' -> sentHeader w0 = sentHeader w' ->
                   status (Error w0 e c) = status w'
                   /\ sentHeader (Error w0 e c) = sentHeader w'
                   /\ exists t, body (Error w0 e c) = body w' ++ t).
    { intros w0 e c Hw0 Hb Hs Hh. rewrite (WriterFacts.Error_committed _ _ _ Hw0).
      cbn [status sentHeader body]. rewrite Hb. eauto. }
    repeat (apply elem_of_cons in Hin as [-> | Hin]).
    - unfold Main.home, NotFound. destruct (negb _); [by apply HE | apply HW].
    - apply HW.
    - unfold Main.snippetCreate. destruct (negb _); [by apply HE | apply HW].
    - apply HW.
    - by apply elem_of_nil in Hin. }
  apply Forall_forall. intros hd1 Hin1. apply Forall_forall. intros hd2 Hin2.
  apply Hsecond; [exact Hin2 |]. by apply Hsent.
Qed.

(** X21: a request other than CONNECT whose path is not in canonical form
    (and is not [*]) reaches none of the program's handlers: in both
    revisions the mux answers with the same redirect, which carries a
    Location header and a status that is none of 200, 404 and 405; the
    cleaned path it sends the client to is canonical, so the request that
    follows the redirect is not redirected again. *)
Theorem uncanonical_path_redirected (r : Request) :
  Method r <> "CONNECT" ->
  Path (Url r) <> "*" ->
  ~ Canonical.canonicalPath (Path (Url r)) ->
  Canonical.canonicalPath (cleanPath (Path (Url r)))
  /\ exists w,
       Main.serve r = Some w
       /\ Part000.serve r = Some w
       /\ is_Some (sentHeader w !! "Location")
       /\ status w <> 200 /\ status w <> 404 /\ status w <> 405.
Proof.
  intros Hm _ Hno. split; [apply CleanFacts.cleanPath_is_canonical |].
  assert (Hfix : String.eqb (cleanPath (Path (Url r))) (Path (Url r)) = false).
  { apply String.eqb_neq. by rewrite CleanFacts.cleanPath_fixed_iff. }
  apply String.eqb_neq in Hm.
  exists (Redirect newResponseWriter r
            (URL_String {| Path := cleanPath (Path (Url r));
                           RawQuery := RawQuery (Url r) |})
            StatusTemporaryRedirect).
  split; [by rewrite RoutesFacts.serve_dispatch, Hm, Hfix |].
  split; [by rewrite Part000Facts.part000_serve_dispatch, Hm, Hfix |].
  destruct (ServerFacts.redirect_reply r
              (URL_String {| Path := cleanPath (Path (Url r));
                             RawQuery := RawQuery (Url r) |}))
    as (_ & Hrs & _ & Hrl & _).
  rewrite Hrs, Hrl. split; [by eexists |]. repeat split; discriminate.
Qed.

Lemma uncanonical_path_redirected_witness :
  Method (otherClientRequest "POST" "/snippet//create") <> "CONNECT"
  /\ Path (Url (otherClientRequest "POST" "/snippet//create")) <> "*"
  /\ ~ Canonical.canonicalPath (Path (Url (otherClientRequest "POST" "/snippet//create")))
  /\ cleanPath (Path (Url (otherClientRequest "POST" "/snippet//create")))
     = "/snippet/create"
  /\ Canonical.canonicalPath
       (cleanPath (Path (Url (otherClientRequest "POST" "/snippet//create"))))
  /\ exists w,
       Main.serve (otherClientRequest "POST" "/snippet//create") = Some w
       /\ Part000.serve (otherClientRequest "POST" "/snippet//create") = Some w
       /\ is_Some (sentHeader w !! "Location")
       /\ status w <> 200 /\ status w <> 404 /\ status w <> 405.
Proof.
  assert (Hno : ~ Canonical.canonicalPath
                    (Path (Url (otherClientRequest "POST" "/snippet//create")))).
  { intros Hcan. apply CleanFacts.cleanPath_canonical in Hcan. discriminate Hcan. }
  split; [discriminate |]. split; [discriminate |].
  split; [exact Hno |]. split; [reflexivity |].
  apply (uncanonical_path_redirected (otherClientRequest "POST" "/snippet//create"));
    [discriminate | discriminate | exact Hno].
Defined.
